(** * EduChain backend: trust score, donation lifecycle, discovery

    A shallow embedding of the request handlers of [main.py] (the
    complete backend) and of [backend/main.py] with
    [backend/database.py] (its earlier variant), over a model of the
    MongoDB document store they talk to.

    - Documents are Python dicts: finite maps from field names to values,
      with the store-assigned [_id] kept apart so that every stored
      document has one.
    - A collection is the list of its documents in natural (insertion)
      order; a database maps collection names to collections.
    - Handlers run in a state and exception monad over the module-level
      database handle, which is [None] when no connection was configured.
      A raised exception does not roll back earlier writes.
    - What the driver draws from outside (the fresh [ObjectId] of an
      insert and the two [utcnow()] readings) is passed in as an
      [oracle].
    - Python floats that only hold small whole numbers (the trust score)
      are integers here; amounts are rationals, which contain every
      finite float and order them the same way. *)

From Stdlib Require Import ZArith QArith Lqa String Ascii List Bool Lia.
From stdpp Require Import base gmap strings list fin_maps.

Local Open Scope Z_scope.
Local Open Scope string_scope.
Local Open Scope list_scope.

(** ** The document store *)

Module Store.

(** *** Characters and ObjectIds *)

Definition ascii_between (lo hi c : ascii) : bool :=
  Ascii.leb lo c && Ascii.leb c hi.

Definition is_lower_hex (c : ascii) : bool :=
  ascii_between "0" "9" c || ascii_between "a" "f" c.

Definition is_hex (c : ascii) : bool :=
  is_lower_hex c || ascii_between "A" "F" c.

(** ASCII lower-casing; bytes outside [A-Z] are left alone. *)
Definition lower (c : ascii) : ascii :=
  if ascii_between "A" "Z" c
  then ascii_of_nat (nat_of_ascii c + 32)
  else c.

Definition chars (s : string) : list ascii := list_ascii_of_string s.

Definition lower_str (s : string) : string :=
  string_of_list_ascii (map lower (chars s)).

(** An [ObjectId] is kept as what [str(ObjectId)] prints: the 24
    lower-case hex digits of its 12 bytes. *)
Definition ObjectId := string.

Definition is_ObjectId (s : string) : bool :=
  (length (chars s) =? 24)%nat && forallb is_lower_hex (chars s).

(** [bson.ObjectId(s)] on a [str]: accepted when [s] is 24 hex digits in
    either case (a 24-character string with white space, which
    [bytes.fromhex] skips, is taken as invalid here). *)
Definition ObjectId_of_str (s : string) : option ObjectId :=
  if (length (chars s) =? 24)%nat && forallb is_hex (chars s)
  then Some (lower_str s)
  else None.

(** *** Values and documents *)

#[local] Unset Elimination Schemes.
Inductive value :=
| VNull
| VBool (b : bool)
| VNum (q : Q)
| VStr (s : string)
| VOid (o : ObjectId)
| VDate (t : Z)
| VList (l : list value)
| VDict (l : list (string * value)).
#[local] Set Elimination Schemes.

Fixpoint value_eqb (a b : value) : bool :=
  match a, b with
  | VNull, VNull => true
  | VBool x, VBool y => Bool.eqb x y
  | VNum x, VNum y => Qeq_bool x y
  | VStr x, VStr y => String.eqb x y
  | VOid x, VOid y => String.eqb x y
  | VDate x, VDate y => Z.eqb x y
  | VList x, VList y =>
      (fix go (l1 l2 : list value) : bool :=
         match l1, l2 with
         | [], [] => true
         | u :: l1', v :: l2' => value_eqb u v && go l1' l2'
         | _, _ => false
         end) x y
  | VDict x, VDict y =>
      (fix go (l1 l2 : list (string * value)) : bool :=
         match l1, l2 with
         | [], [] => true
         | (j, u) :: l1', (k, v) :: l2' =>
             String.eqb j k && value_eqb u v && go l1' l2'
         | _, _ => false
         end) x y
  | _, _ => false
  end.

Definition is_null (v : value) : bool :=
  match v with VNull => true | _ => false end.

(** The fields of a dict other than [_id]. *)
Abbreviation fields := (gmap string value).

Record document := Doc { doc_id : ObjectId; doc_fields : fields }.

(** [d.get(k)] on a document read back from the store. *)
Definition doc_get (d : document) (k : string) : option value :=
  if String.eqb k "_id" then Some (VOid (doc_id d)) else doc_fields d !! k.

(** [d.get(k) == s] for a string literal [s]. *)
Definition get_is (d : document) (k s : string) : bool :=
  match doc_get d k with
  | Some v => value_eqb v (VStr s)
  | None => false
  end.

(** [{"$set": upd}] applied to one document: the given fields replace or
    extend the stored ones. No [$set] of these programs carries [_id]. *)
Definition apply_set (upd : fields) (d : document) : document :=
  Doc (doc_id d) (upd ∪ doc_fields d).

(** *** Query filters, as predicates on documents *)

(** [{}] *)
Definition f_all (d : document) : bool := true.

(** [{k: v}]: the field equals [v]; a missing field equals only [None]. *)
Definition f_eq (k : string) (v : value) (d : document) : bool :=
  match doc_get d k with
  | Some w => value_eqb w v
  | None => is_null v
  end.

(** [{k: {"$ne": None}}] *)
Definition f_ne_null (k : string) (d : document) : bool :=
  negb (f_eq k VNull d).

(** [{"$or": [p; q]}] *)
Definition f_or (p q : document -> bool) (d : document) : bool := p d || q d.

(** *** Regular expressions of [$regex]

    The server's matcher is known here on the patterns made of ordinary
    characters and [.] over ASCII subjects, with no option or option
    [i]; on everything else it is the [engine] the caller passes in. *)

Inductive rx_atom := RxChar (c : ascii) | RxAny.

Definition is_ascii7 (c : ascii) : bool := (nat_of_ascii c <? 128)%nat.

Definition is_meta (c : ascii) : bool :=
  existsb (Ascii.eqb c) (chars "\^$.|?*+()[]{}").

Definition rx_of_char (c : ascii) : option rx_atom :=
  if negb (is_ascii7 c) then None
  else if Ascii.eqb c "." then Some RxAny
  else if is_meta c then None
  else Some (RxChar c).

Fixpoint rx_parse (pat : list ascii) : option (list rx_atom) :=
  match pat with
  | [] => Some []
  | c :: pat' =>
      match rx_of_char c, rx_parse pat' with
      | Some a, Some r => Some (a :: r)
      | _, _ => None
      end
  end.

Definition newline : ascii := ascii_of_nat 10.

Definition rx_atom_matches (ci : bool) (a : rx_atom) (c : ascii) : bool :=
  match a with
  | RxAny => negb (Ascii.eqb c newline)
  | RxChar p => if ci then Ascii.eqb (lower p) (lower c) else Ascii.eqb p c
  end.

(** The pattern matches a prefix of the subject. *)
Fixpoint rx_match_here (ci : bool) (r : list rx_atom) (s : list ascii) : bool :=
  match r, s with
  | [], _ => true
  | _ :: _, [] => false
  | a :: r', c :: s' => rx_atom_matches ci a c && rx_match_here ci r' s'
  end.

(** The pattern matches somewhere in the subject (an unanchored search). *)
Fixpoint rx_search (ci : bool) (r : list rx_atom) (s : list ascii) : bool :=
  rx_match_here ci r s ||
  match s with
  | [] => false
  | _ :: s' => rx_search ci r s'
  end.

Definition regex_engine := string -> string -> string -> bool.

Definition regex_search (engine : regex_engine) (pat opts subj : string) : bool :=
  match rx_parse (chars pat) with
  | Some r =>
      if forallb is_ascii7 (chars subj) then
        if String.eqb opts "" then rx_search false r (chars subj)
        else if String.eqb opts "i" then rx_search true r (chars subj)
        else engine pat opts subj
      else engine pat opts subj
  | None => engine pat opts subj
  end.

(** [{k: {"$regex": pat, "$options": opts}}] on a string field. *)
Definition f_regex (engine : regex_engine) (k pat opts : string) (d : document) : bool :=
  match doc_get d k with
  | Some (VStr s) => regex_search engine pat opts s
  | _ => false
  end.

(** *** Databases, exceptions and the handler monad *)

Abbreviation Database := (gmap string (list document)).

(** [db[name]]: a collection that was never written to is empty. *)
Definition coll (d : Database) (name : string) : list document :=
  default [] (d !! name).

Inductive exn :=
| HTTPException (status_code : Z) (detail : string)
| RuntimeError (msg : string)
| StoreUnavailable
| TypeError
| InvalidId
| DuplicateKeyError.

Inductive result (A : Type) :=
| Ok (a : A)
| Raise (e : exn).
Arguments Ok {A} a.
Arguments Raise {A} e.

(** The module-level handle: [None] when no database is configured. *)
Abbreviation handle := (option (gmap string (list document))).

Definition M (A : Type) : Type := handle -> result A * handle.

Definition ret {A} (a : A) : M A := fun h => (Ok a, h).

Definition raise {A} (e : exn) : M A := fun h => (Raise e, h).

Definition bind {A B} (m : M A) (k : A -> M B) : M B :=
  fun h =>
    match m h with
    | (Ok a, h') => k a h'
    | (Raise e, h') => (Raise e, h')
    end.

(** [try: body / except Exception: handler]; every [exn] above is an
    [Exception]. Writes done before the raise stay. *)
Definition try_except {A} (body : M A) (handler : exn -> M A) : M A :=
  fun h =>
    match body h with
    | (Ok a, h') => (Ok a, h')
    | (Raise e, h') => handler e h'
    end.

Declare Scope monad_scope.
Delimit Scope monad_scope with monad.
Notation "x <- m ;; k" := (bind m (fun x => k))
  (at level 100, m at next level, right associativity) : monad_scope.
Notation "m ;;; k" := (bind m (fun _ => k))
  (at level 100, right associativity) : monad_scope.

(** Subscripting the handle: [db[name]] on [None] is a [TypeError]. *)
Definition with_db {A} (f : Database -> result A * Database) : M A :=
  fun h =>
    match h with
    | None => (Raise TypeError, None)
    | Some d => let (r, d') := f d in (r, Some d')
    end.

(** Evaluating [db[name]] alone: in [db[name].op(args)] it comes before
    the arguments are computed. *)
Definition subscript_db : M unit := with_db (fun d => (Ok tt, d)).

(** *** Collection operations of the driver *)

(** The first document of the list that [p] accepts becomes [f] of it. *)
Fixpoint update_first (p : document -> bool) (f : document -> document)
    (c : list document) : list document :=
  match c with
  | [] => []
  | d :: c' => if p d then f d :: c' else d :: update_first p f c'
  end.

(** [cursor.limit(n)]: [0] is no limit, a negative [n] counts as [-n]. *)
Definition limit_docs {A} (n : Z) (l : list A) : list A :=
  if (n =? 0)%Z then l else firstn (Z.abs_nat n) l.

Definition has_id (o : ObjectId) (d : document) : bool := String.eqb (doc_id d) o.

Definition find_one (name : string) (p : document -> bool) : M (option document) :=
  with_db (fun d => (Ok (List.find p (coll d name)), d)).

Definition count_documents (name : string) (p : document -> bool) : M Z :=
  with_db (fun d => (Ok (Z.of_nat (length (List.filter p (coll d name)))), d)).

Definition find_limit (name : string) (p : document -> bool) (n : Z)
    : M (list document) :=
  with_db (fun d => (Ok (limit_docs n (List.filter p (coll d name))), d)).

(** [update_one(filter, {"$set": upd})]: nothing happens without a match. *)
Definition update_one (name : string) (p : document -> bool) (upd : fields)
    : M unit :=
  with_db (fun d =>
    match List.find p (coll d name) with
    | None => (Ok tt, d)
    | Some _ => (Ok tt, <[name := update_first p (apply_set upd) (coll d name)]> d)
    end).

(** [insert_one(data)] with the [_id] the driver generated; the unique
    index on [_id] refuses an id the collection already holds. *)
Definition insert_one (name : string) (data : fields) (new : ObjectId)
    : M ObjectId :=
  with_db (fun d =>
    if existsb (has_id new) (coll d name)
    then (Raise DuplicateKeyError, d)
    else (Ok new, <[name := coll d name ++ [Doc new data]]> d)).

(** What one insert takes from outside the program. *)
Record oracle := Oracle {
  new_id : ObjectId;
  now_created : Z;
  now_updated : Z
}.

(** [{**data, "created_at": utcnow(), "updated_at": utcnow()}] *)
Definition stamped (data : fields) (o : oracle) : fields :=
  <["updated_at" := VDate (now_updated o)]>
    (<["created_at" := VDate (now_created o)]> data).

End Store.

(** ** [schemas.py]: the request models of the complete backend *)

Module Schemas.
Import Store.

Definition opt_value {A} (f : A -> value) (o : option A) : value :=
  match o with
  | Some a => f a
  | None => VNull
  end.

Definition VStrs (l : list string) : value := VList (map VStr l).

Inductive KycStatus := not_submitted | kyc_pending | kyc_verified | kyc_rejected.

Definition KycStatus_str (s : KycStatus) : string :=
  match s with
  | not_submitted => "not_submitted"
  | kyc_pending => "pending"
  | kyc_verified => "verified"
  | kyc_rejected => "rejected"
  end.

Module Student.
Record t := Build {
  full_name : string;
  email : string;
  phone : option string;
  school_name : string;
  class_grade : option string;
  address : option string;
  country : option string;
  city : option string;
  location : option (list (string * value));
  languages : list string;
  trust_score : Q;
  kyc_status : KycStatus;
  created_at : option Z
}.

(** The field constraint [ge=0, le=100] on [trust_score]. *)
Definition valid (s : t) : Prop := (0 <= trust_score s <= 100)%Q.

Definition model_dump (s : t) : fields :=
  list_to_map
    [ ("full_name", VStr (full_name s));
      ("email", VStr (email s));
      ("phone", opt_value VStr (phone s));
      ("school_name", VStr (school_name s));
      ("class_grade", opt_value VStr (class_grade s));
      ("address", opt_value VStr (address s));
      ("country", opt_value VStr (country s));
      ("city", opt_value VStr (city s));
      ("location", opt_value VDict (location s));
      ("languages", VStrs (languages s));
      ("trust_score", VNum (trust_score s));
      ("kyc_status", VStr (KycStatus_str (kyc_status s)));
      ("created_at", opt_value VDate (created_at s)) ].
End Student.

Module KYCDocument.
Inductive Status := pending | verified | rejected.

Definition Status_str (s : Status) : string :=
  match s with
  | pending => "pending"
  | verified => "verified"
  | rejected => "rejected"
  end.

Record t := Build {
  student_id : string;
  id_proof_url : string;
  student_id_card_url : string;
  school_letter_url : option string;
  selfie_url : string;
  status : Status;
  remarks : option string
}.

Definition model_dump (k : t) : fields :=
  list_to_map
    [ ("student_id", VStr (student_id k));
      ("id_proof_url", VStr (id_proof_url k));
      ("student_id_card_url", VStr (student_id_card_url k));
      ("school_letter_url", opt_value VStr (school_letter_url k));
      ("selfie_url", VStr (selfie_url k));
      ("status", VStr (Status_str (status k)));
      ("remarks", opt_value VStr (remarks k)) ].
End KYCDocument.

Module ProofSubmission.
Record t := Build {
  student_id : string;
  title : string;
  description : option string;
  amount : option Q;
  currency : option string;
  files : list string;
  reviewed : bool
}.

Definition model_dump (p : t) : fields :=
  list_to_map
    [ ("student_id", VStr (student_id p));
      ("title", VStr (title p));
      ("description", opt_value VStr (description p));
      ("amount", opt_value VNum (amount p));
      ("currency", opt_value VStr (currency p));
      ("files", VStrs (files p));
      ("reviewed", VBool (reviewed p)) ].
End ProofSubmission.

Module Donation.
Inductive Scholarship := micro | big.

Definition Scholarship_str (s : Scholarship) : string :=
  match s with
  | micro => "micro"
  | big => "big"
  end.

Inductive Gateway :=
| upi | cards | netbanking | paypal | stripe | gpay | applepay | intl_wallet.

Definition Gateway_str (g : Gateway) : string :=
  match g with
  | upi => "upi"
  | cards => "cards"
  | netbanking => "netbanking"
  | paypal => "paypal"
  | stripe => "stripe"
  | gpay => "gpay"
  | applepay => "applepay"
  | intl_wallet => "intl_wallet"
  end.

Inductive Status := created | processing | succeeded | failed | refunded.

Definition Status_str (s : Status) : string :=
  match s with
  | created => "created"
  | processing => "processing"
  | succeeded => "succeeded"
  | failed => "failed"
  | refunded => "refunded"
  end.

Record t := Build {
  donor_name : option string;
  donor_email : option string;
  student_id : option string;
  scholarship : Scholarship;
  amount : Q;
  currency : string;
  gateway : Gateway;
  status : Status;
  payment_reference : option string;
  blockchain_tx : option string;
  country : option string
}.

Definition model_dump (d : t) : fields :=
  list_to_map
    [ ("donor_name", opt_value VStr (donor_name d));
      ("donor_email", opt_value VStr (donor_email d));
      ("student_id", opt_value VStr (student_id d));
      ("scholarship", VStr (Scholarship_str (scholarship d)));
      ("amount", VNum (amount d));
      ("currency", VStr (currency d));
      ("gateway", VStr (Gateway_str (gateway d)));
      ("status", VStr (Status_str (status d)));
      ("payment_reference", opt_value VStr (payment_reference d));
      ("blockchain_tx", opt_value VStr (blockchain_tx d));
      ("country", opt_value VStr (country d)) ].
End Donation.

End Schemas.

(** ** [main.py]: the complete backend *)

Module Main.
Import Store Schemas.
Local Open Scope monad_scope.

(** [str(ObjectId)] *)
Definition str_of_ObjectId (o : ObjectId) : string := o.

(** [oid]: an id that does not parse is a 400. *)
Definition oid (s : string) : M ObjectId :=
  match ObjectId_of_str s with
  | Some o => ret o
  | None => raise (HTTPException 400 "Invalid ID")
  end.

(** A bare [ObjectId(s)], whose [InvalidId] nothing turns into a 400. *)
Definition ObjectId_new (s : string) : M ObjectId :=
  match ObjectId_of_str s with
  | Some o => ret o
  | None => raise InvalidId
  end.

(** Modelled from the spec: [create_document] of the [database] module
    that [main.py] imports, which is not among the sources. It persists
    a new record, stamping [created_at] and [updated_at] with the
    current time, and returns the newly assigned identifier as a string;
    it fails with [StoreUnavailable] when the store has no live
    connection. A request model is passed as its dump. *)
Definition create_document (collection_name : string) (data : fields)
    (o : oracle) : M string :=
  fun h =>
    match h with
    | None => (Raise StoreUnavailable, None)
    | Some _ =>
        (res <- insert_one collection_name (stamped data o) (new_id o) ;;
         ret (str_of_ObjectId res)) h
    end.

(** Lines 40-48 of [compute_trust_score]: the score from what was read. *)
Definition score_of (kyc : option document) (proofs_count : Z) : Z :=
  let score := 10 in
  let score :=
    match kyc with
    | Some k =>
        let score := score + 30 in
        if get_is k "status" "verified" then score + 30
        else if get_is k "status" "pending" then score + 10
        else score
    | None => score
    end in
  let score := score + Z.min 30 (proofs_count * 5) in
  Z.max 0 (Z.min 100 score).

Definition compute_trust_score (student_id : string) : M Z :=
  sid <- oid student_id ;;
  student <- find_one "student" (f_eq "_id" (VOid sid)) ;;
  match student with
  | None => raise (HTTPException 404 "Student not found")
  | Some _ =>
      kyc <- find_one "kycdocument" (f_eq "student_id" (VStr student_id)) ;;
      proofs_count <-
        count_documents "proofsubmission" (f_eq "student_id" (VStr student_id)) ;;
      ret (score_of kyc proofs_count)
  end.

Definition VScore (ts : Z) : value := VNum (inject_Z ts).

Definition create_student (student : Student.t) (o : oracle) : M string :=
  let data := Student.model_dump student in
  _id <- create_document "student" data o ;;
  subscript_db ;;;
  i <- ObjectId_new _id ;;
  update_one "student" (f_eq "_id" (VOid i)) {["trust_score" := VNum 0]} ;;;
  ret _id.

Definition submit_kyc (payload : KYCDocument.t) (o : oracle) : M (string * Z) :=
  let student_id := KYCDocument.student_id payload in
  existing <- find_one "kycdocument" (f_eq "student_id" (VStr student_id)) ;;
  kyc_id <-
    match existing with
    | Some e =>
        update_one "kycdocument" (f_eq "_id" (VOid (doc_id e)))
          (KYCDocument.model_dump payload) ;;;
        ret (str_of_ObjectId (doc_id e))
    | None => create_document "kycdocument" (KYCDocument.model_dump payload) o
    end ;;
  subscript_db ;;;
  sid <- oid student_id ;;
  update_one "student" (f_eq "_id" (VOid sid))
    {["kyc_status" := VStr (KYCDocument.Status_str (KYCDocument.status payload))]} ;;;
  ts <- compute_trust_score student_id ;;
  subscript_db ;;;
  sid <- oid student_id ;;
  update_one "student" (f_eq "_id" (VOid sid)) {["trust_score" := VScore ts]} ;;;
  ret (kyc_id, ts).

Definition submit_proof (proof : ProofSubmission.t) (o : oracle)
    : M (string * option Z) :=
  let student_id := ProofSubmission.student_id proof in
  _id <- create_document "proofsubmission" (ProofSubmission.model_dump proof) o ;;
  ts <- try_except
          (ts <- compute_trust_score student_id ;;
           subscript_db ;;;
           sid <- oid student_id ;;
           update_one "student" (f_eq "_id" (VOid sid))
             {["trust_score" := VScore ts]} ;;;
           ret (Some ts))
          (fun _ => ret None) ;;
  ret (_id, ts).

Record PaymentIntentResponse := {
  reference : string;
  redirect_url : option string;
  status : string
}.

Definition micro_detail : string :=
  "Micro scholarship must be between ₹10–₹5,000".
Definition big_detail : string :=
  "Big scholarship must be between ₹10,000–₹10,00,000".

(** [lo <= amt <= hi] *)
Definition between (lo amt hi : Q) : bool := Qle_bool lo amt && Qle_bool amt hi.

Definition is_scholarship (d : Donation.t) (name : string) : bool :=
  String.eqb (Donation.Scholarship_str (Donation.scholarship d)) name.

Definition initiate_donation (donation : Donation.t) (o : oracle)
    : M PaymentIntentResponse :=
  let amt := Donation.amount donation in
  if is_scholarship donation "micro"
     && String.eqb (Donation.currency donation) "INR"
     && negb (between 10 amt 5000)
  then raise (HTTPException 400 micro_detail)
  else if is_scholarship donation "big"
     && String.eqb (Donation.currency donation) "INR"
     && negb (between 10000 amt 1000000)
  then raise (HTTPException 400 big_detail)
  else
    donation_id <- create_document "donation" (Donation.model_dump donation) o ;;
    let payment_reference :=
      "EDC-" +:+ Donation.Gateway_str (Donation.gateway donation)
        +:+ "-" +:+ donation_id in
    let redirect_url : option string := None in
    let status := "created" in
    subscript_db ;;;
    did <- oid donation_id ;;
    update_one "donation" (f_eq "_id" (VOid did))
      (<["payment_reference" := VStr payment_reference]>
         {["status" := VStr status]}) ;;;
    ret {| reference := payment_reference;
           redirect_url := redirect_url;
           status := status |}.

Module WebhookUpdate.
Record t := Build {
  reference : string;
  status : string;
  gateway_tx : option string;
  blockchain_tx : option string
}.

Definition opt_entry (k : string) (o : option string) : fields :=
  match o with
  | Some s => {[k := VStr s]}
  | None => ∅
  end.

(** [model_dump(exclude_none=True)] *)
Definition model_dump_exclude_none (u : t) : fields :=
  <["reference" := VStr (reference u)]>
    (<["status" := VStr (status u)]>
       (opt_entry "gateway_tx" (gateway_tx u)
          ∪ opt_entry "blockchain_tx" (blockchain_tx u))).
End WebhookUpdate.

Definition donation_webhook (update : WebhookUpdate.t) : M bool :=
  d <- find_one "donation"
         (f_eq "payment_reference" (VStr (WebhookUpdate.reference update))) ;;
  match d with
  | None => raise (HTTPException 404 "Donation not found")
  | Some d =>
      update_one "donation" (f_eq "_id" (VOid (doc_id d)))
        (WebhookUpdate.model_dump_exclude_none update) ;;;
      ret true
  end.

Definition record_blockchain_tx (donation_id tx_hash : string) : M (bool * string) :=
  subscript_db ;;;
  did <- oid donation_id ;;
  update_one "donation" (f_eq "_id" (VOid did)) {["blockchain_tx" := VStr tx_hash]} ;;;
  ret (true, tx_hash).

(** [d["id"] = str(d.pop("_id"))] *)
Definition with_str_id (d : document) : fields :=
  <["id" := VStr (str_of_ObjectId (doc_id d))]> (doc_fields d).

Definition discover_students (lat lng : option Q) (radius_km : Q) (limit : Z)
    : M (list fields) :=
  let query :=
    match lat, lng with
    | Some _, Some _ => f_ne_null "location"
    | _, _ => f_all
    end in
  docs <- find_limit "student" query limit ;;
  ret (map with_str_id docs).

Definition get_trust (student_id : string) : M Z :=
  ts <- compute_trust_score student_id ;;
  subscript_db ;;;
  sid <- oid student_id ;;
  update_one "student" (f_eq "_id" (VOid sid)) {["trust_score" := VScore ts]} ;;;
  ret ts.

(** The requests that write to the KYC collection, one after the other;
    what a request answers or raises does not matter to the next. *)
Fixpoint submit_kyc_all (reqs : list (KYCDocument.t * oracle)) (h : handle) : handle :=
  match reqs with
  | [] => h
  | (payload, o) :: reqs' => submit_kyc_all reqs' (snd (submit_kyc payload o h))
  end.

End Main.

(** ** [backend/]: the earlier variant *)

Module Backend.
Import Store.
Local Open Scope monad_scope.

(** *** [backend/database.py] *)

(** [db()] *)
Definition db : M handle := fun h => (Ok h, h).

Definition create_document (collection_name : string) (data : fields)
    (o : oracle) : M string :=
  fun h =>
    match h with
    | None => (Raise (RuntimeError "Database not initialized"), None)
    | Some _ =>
        (let data := stamped data o in
         res <- insert_one collection_name data (new_id o) ;;
         ret (Main.str_of_ObjectId res)) h
    end.

(** [doc["id"] = str(doc.pop("_id"))] *)
Definition with_str_id (d : document) : fields :=
  <["id" := VStr (doc_id d)]> (doc_fields d).

(** The filter arrives as the predicate it denotes; [{}] and [None] are
    both [f_all]. *)
Definition get_documents (collection_name : string)
    (filter_dict : document -> bool) (limit : Z) : M (list fields) :=
  fun h =>
    match h with
    | None => (Raise (RuntimeError "Database not initialized"), None)
    | Some _ =>
        (cursor <- find_limit collection_name filter_dict limit ;;
         ret (map with_str_id cursor)) h
    end.

(** *** [backend/schemas.py], as far as the handlers below use it *)

Module KYCDocument.
Record t := Build {
  student_id : string;
  id_proof_url : string;
  student_id_card_url : string;
  school_letter_url : option string;
  selfie_url : string;
  status : string
}.

Definition model_dump (k : t) : fields :=
  list_to_map
    [ ("student_id", VStr (student_id k));
      ("id_proof_url", VStr (id_proof_url k));
      ("student_id_card_url", VStr (student_id_card_url k));
      ("school_letter_url", Schemas.opt_value VStr (school_letter_url k));
      ("selfie_url", VStr (selfie_url k));
      ("status", VStr (status k)) ].
End KYCDocument.

(** *** [backend/main.py] *)

(** Answers the new id and the dump it stored. *)
Definition submit_kyc (doc : KYCDocument.t) (o : oracle) : M (string * fields) :=
  did <- create_document "kycdocument" (KYCDocument.model_dump doc) o ;;
  ret (did, KYCDocument.model_dump doc).

(** [if q:] holds for a string that is given and not empty. *)
Definition truthy (q : option string) : bool :=
  match q with
  | Some s => negb (String.eqb s "")
  | None => false
  end.

Definition discover_students (engine : regex_engine) (q : option string)
    (limit : Z) : M (list fields) :=
  let flt :=
    if truthy q
    then f_or (f_regex engine "full_name" (default "" q) "i")
              (f_regex engine "school_name" (default "" q) "i")
    else f_all in
  get_documents "student" flt limit.

Definition f_and (p q : document -> bool) (d : document) : bool := p d && q d.

(** The placeholder behind [GET /trust/{student_id}]. *)
Definition trust (student_id : string) : M (string * Z) :=
  database <- db ;;
  match database with
  | None => ret (student_id, 0)
  | Some _ =>
      proofs <- count_documents "proofsubmission"
                  (f_eq "student_id" (VStr student_id)) ;;
      kycs <- count_documents "kycdocument"
                (f_and (f_eq "student_id" (VStr student_id))
                       (f_eq "status" (VStr "verified"))) ;;
      ret (student_id, Z.min 100 (40 + proofs * 10 + kycs * 30))
  end.

(** *** More of [backend/schemas.py] and [backend/main.py] *)

Definition MICRO_MIN_INR : Q := 10.
Definition MICRO_MAX_INR : Q := 5000.
Definition BIG_MIN_INR : Q := 10000.
Definition BIG_MAX_INR : Q := 1000000.

Module Student.
Record t := Build {
  full_name : string;
  email : option string;
  phone : option string;
  country : option string;
  school_name : option string;
  grade : option string;
  languages : option (list string);
  location : option (list (string * value));
  trust_score : option Q
}.

Definition model_dump (s : t) : fields :=
  list_to_map
    [ ("full_name", VStr (full_name s));
      ("email", Schemas.opt_value VStr (email s));
      ("phone", Schemas.opt_value VStr (phone s));
      ("country", Schemas.opt_value VStr (country s));
      ("school_name", Schemas.opt_value VStr (school_name s));
      ("grade", Schemas.opt_value VStr (grade s));
      ("languages", Schemas.opt_value Schemas.VStrs (languages s));
      ("location", Schemas.opt_value VDict (location s));
      ("trust_score", Schemas.opt_value VNum (trust_score s)) ].
End Student.

Module Donation.
Record t := Build {
  student_id : option string;
  scholarship : string;
  amount : Q;
  currency : string;
  gateway : string
}.

Definition model_dump (d : t) : fields :=
  list_to_map
    [ ("student_id", Schemas.opt_value VStr (student_id d));
      ("scholarship", VStr (scholarship d));
      ("amount", VNum (amount d));
      ("currency", VStr (currency d));
      ("gateway", VStr (gateway d)) ].
End Donation.

(** [{"id": sid, **student.model_dump()}] *)
Definition create_student (student : Student.t) (o : oracle) : M fields :=
  sid <- create_document "student" (Student.model_dump student) o ;;
  ret (Student.model_dump student ∪ {["id" := VStr sid]}).

Definition list_students : M (list fields) := get_documents "student" f_all 200.

(** [lo <= amount <= hi] *)
Definition between (lo amt hi : Q) : bool := Qle_bool lo amt && Qle_bool amt hi.

(** The answer [{"status": "created", "reference": ref}], as the pair of
    its two values. [upper] stands for [str.upper], which knows all of
    Unicode and is left to the caller. *)
Definition initiate_donation (upper : string -> string) (donation : Donation.t)
    (o : oracle) : M (string * string) :=
  (if String.eqb (upper (Donation.currency donation)) "INR" then
     if String.eqb (Donation.scholarship donation) "micro"
        && negb (between MICRO_MIN_INR (Donation.amount donation) MICRO_MAX_INR)
     then raise (HTTPException 400 "Amount out of micro scholarship range")
     else if String.eqb (Donation.scholarship donation) "big"
        && negb (between BIG_MIN_INR (Donation.amount donation) BIG_MAX_INR)
     then raise (HTTPException 400 "Amount out of big scholarship range")
     else ret tt
   else ret tt) ;;;
  ref <- create_document "donation" (Donation.model_dump donation) o ;;
  ret ("created", ref).

End Backend.

(** ** The specification's own words, for comparison with the code *)

Module Spec.
Import Store.

(** What the trust score looks at in a student's KYC evidence. *)
Inductive kyc_state := NoKyc | KycVerified | KycPending | KycOther.

(** Step 2: +30 for an existing record, a further +30 when it is
    verified, a further +10 when it is pending. *)
Definition kyc_points (k : kyc_state) : Z :=
  match k with
  | NoKyc => 0
  | KycVerified => 30 + 30
  | KycPending => 30 + 10
  | KycOther => 30
  end.

(** Step 3: 5 per proof submission, capped at 30 in total. *)
Definition proof_points (proofs : nat) : Z := Z.min 30 (5 * Z.of_nat proofs).

Definition clamp (lo hi x : Z) : Z := Z.max lo (Z.min hi x).

(** Steps 1-4. *)
Definition trust_score (k : kyc_state) (proofs : nat) : Z :=
  clamp 0 100 (10 + kyc_points k + proof_points proofs).

(** The KYC evidence a store holds for a student id: its first record
    with that [student_id]. *)
Definition kyc_state_of (kyc : option document) : kyc_state :=
  match kyc with
  | None => NoKyc
  | Some k =>
      match doc_get k "status" with
      | Some (VStr s) =>
          if String.eqb s "verified" then KycVerified
          else if String.eqb s "pending" then KycPending
          else KycOther
      | _ => KycOther
      end
  end.

Definition kyc_records (d : Database) (student_id : string) : list document :=
  List.filter (f_eq "student_id" (VStr student_id)) (coll d "kycdocument").

Definition proof_records (d : Database) (student_id : string) : list document :=
  List.filter (f_eq "student_id" (VStr student_id)) (coll d "proofsubmission").

(** The tier bounds of §3, inclusive. *)
Definition tier_bounds (s : Schemas.Donation.Scholarship) : Q * Q :=
  match s with
  | Schemas.Donation.micro => (10, 5000)%Q
  | Schemas.Donation.big => (10000, 1000000)%Q
  end.

Definition within_tier (s : Schemas.Donation.Scholarship) (amount : Q) : Prop :=
  (fst (tier_bounds s) <= amount /\ amount <= snd (tier_bounds s))%Q.

(** [q] occurs in [s] as a contiguous run of characters. *)
Fixpoint is_prefix (q s : list ascii) : bool :=
  match q, s with
  | [], _ => true
  | _ :: _, [] => false
  | a :: q', b :: s' => Ascii.eqb a b && is_prefix q' s'
  end.

Fixpoint is_substring (q s : list ascii) : bool :=
  is_prefix q s ||
  match s with
  | [] => false
  | _ :: s' => is_substring q s'
  end.

(** Case-insensitive containment. *)
Definition contains_ci (q s : string) : bool :=
  is_substring (map lower (chars q)) (map lower (chars s)).

(** The string field [k] of the document contains [q], whatever the case. *)
Definition field_contains_ci (k q : string) (d : document) : bool :=
  match doc_get d k with
  | Some (VStr s) => contains_ci q s
  | _ => false
  end.

End Spec.

(** ** Notions the theorems are stated with *)

Module Aux.
Import Store Schemas.

(** The handler answered rather than raised. *)
Definition succeeds {A} (r : result A * handle) : Prop :=
  exists a h', r = (Ok a, h').

(** The handler raised an [HTTPException] with this status code. *)
Definition fails_with {A} (status_code : Z) (r : result A * handle) : Prop :=
  exists detail h', r = (Raise (HTTPException status_code detail), h').

(** The two range tests of [initiate_donation] both let the donation
    through. *)
Definition passes_range_tests (don : Donation.t) : bool :=
  negb (Main.is_scholarship don "micro"
        && String.eqb (Donation.currency don) "INR"
        && negb (Main.between 10 (Donation.amount don) 5000))
  && negb (Main.is_scholarship don "big"
           && String.eqb (Donation.currency don) "INR"
           && negb (Main.between 10000 (Donation.amount don) 1000000)).

(** What [initiate_donation] writes onto the record it created. *)
Definition intent_update (don : Donation.t) (o : oracle) : fields :=
  <["payment_reference" :=
      VStr ("EDC-" +:+ Donation.Gateway_str (Donation.gateway don)
              +:+ "-" +:+ new_id o)]>
    {["status" := VStr "created"]}.

(** The id is new to the collection. *)
Definition fresh_in (o : ObjectId) (c : list document) : bool :=
  negb (existsb (has_id o) c).

(** No two documents of the collection share an [_id]: the unique index
    every collection has. *)
Definition unique_ids (c : list document) : Prop := List.NoDup (map doc_id c).

(** At most one document of the collection carries a given
    [student_id]. *)
Definition one_per_student (c : list document) : Prop :=
  forall s, (length (List.filter (f_eq "student_id" (VStr s)) c) <= 1)%nat.

(** The KYC collection after [submit_kyc]: the student's record is
    overwritten where it stands, or a record is appended when there was
    none (and the insert was not refused). *)
Definition kyc_after (c : list document) (payload : KYCDocument.t) (o : oracle)
    : list document :=
  match List.find (f_eq "student_id" (VStr (KYCDocument.student_id payload))) c with
  | Some e =>
      update_first (has_id (doc_id e)) (apply_set (KYCDocument.model_dump payload)) c
  | None =>
      if existsb (has_id (new_id o)) c then c
      else c ++ [Doc (new_id o) (stamped (KYCDocument.model_dump payload) o)]
  end.

(** A query of ASCII characters none of which means anything special in
    a regular expression. *)
Definition plain_query (q : string) : bool :=
  forallb (fun c => is_ascii7 c && negb (is_meta c)) (chars q).

Definition ascii_text (s : string) : bool := forallb is_ascii7 (chars s).

(** The string field [k] of the document matches the pattern [q] under
    option [i]. *)
Definition field_matches (engine : regex_engine) (k q : string) (st : document)
    : Prop :=
  exists v, doc_get st k = Some (VStr v) /\ regex_search engine q "i" v = true.

(** Both, for the KYC collection behind a handle. *)
Definition kyc_inv (h : handle) : Prop :=
  match h with
  | None => True
  | Some d =>
      unique_ids (coll d "kycdocument") /\ one_per_student (coll d "kycdocument")
  end.

(** On a connected store the computation leaves the collection [name]
    as it found it, whether it answers or raises. *)
Definition preserves {A} (name : string) (m : M A) : Prop :=
  forall d : Database,
    exists r d', m (Some d) = (r, Some d') /\ coll d' name = coll d name.

(** The database after [update_one(filter, {"$set": upd})]. *)
Definition updated (d : Database) (name : string) (p : document -> bool)
    (upd : fields) : Database :=
  match List.find p (coll d name) with
  | None => d
  | Some _ => <[name := update_first p (apply_set upd) (coll d name)]> d
  end.

(** The first step of [submit_kyc] goes through: there is a record to
    overwrite, or the driver's id is new. *)
Definition kyc_step_ok (c : list document) (payload : KYCDocument.t) (o : oracle)
    : bool :=
  match List.find (f_eq "student_id" (VStr (KYCDocument.student_id payload))) c with
  | Some _ => true
  | None => fresh_in (new_id o) c
  end.

(** The id [submit_kyc] answers then. *)
Definition kyc_id_of (c : list document) (payload : KYCDocument.t) (o : oracle)
    : string :=
  match List.find (f_eq "student_id" (VStr (KYCDocument.student_id payload))) c with
  | Some e => Main.str_of_ObjectId (doc_id e)
  | None => new_id o
  end.

(** [submit_kyc] from the line after the KYC record was written. *)
Definition kyc_rest (payload : KYCDocument.t) (kyc_id : string) : M (string * Z) :=
  (let student_id := KYCDocument.student_id payload in
   subscript_db ;;;
   sid <- Main.oid student_id ;;
   update_one "student" (f_eq "_id" (VOid sid))
     {["kyc_status" := VStr (KYCDocument.Status_str (KYCDocument.status payload))]} ;;;
   ts <- Main.compute_trust_score student_id ;;
   subscript_db ;;;
   sid <- Main.oid student_id ;;
   update_one "student" (f_eq "_id" (VOid sid)) {["trust_score" := Main.VScore ts]} ;;;
   ret (kyc_id, ts))%monad.

(** The detail of the 400 with which [initiate_donation] of the earlier
    variant refuses the donation, if it does. *)
Definition backend_range_error (upper : string -> string) (don : Backend.Donation.t)
    : option string :=
  if String.eqb (upper (Backend.Donation.currency don)) "INR" then
    if String.eqb (Backend.Donation.scholarship don) "micro"
       && negb (Backend.between Backend.MICRO_MIN_INR (Backend.Donation.amount don)
                  Backend.MICRO_MAX_INR)
    then Some "Amount out of micro scholarship range"
    else if String.eqb (Backend.Donation.scholarship don) "big"
       && negb (Backend.between Backend.BIG_MIN_INR (Backend.Donation.amount don)
                  Backend.BIG_MAX_INR)
    then Some "Amount out of big scholarship range"
    else None
  else None.

(** The requests [main.py] serves that reach the store. *)
Inductive request :=
| CreateStudent (student : Student.t) (o : oracle)
| SubmitKyc (payload : KYCDocument.t) (o : oracle)
| SubmitProof (proof : ProofSubmission.t) (o : oracle)
| InitiateDonation (donation : Donation.t) (o : oracle)
| DonationWebhook (update : Main.WebhookUpdate.t)
| RecordBlockchainTx (donation_id tx_hash : string)
| DiscoverStudents (lat lng : option Q) (radius_km : Q) (limit : Z)
| GetTrust (student_id : string).

(** The store after a request was served, whatever was answered. *)
Definition serve (r : request) (h : handle) : handle :=
  match r with
  | CreateStudent student o => snd (Main.create_student student o h)
  | SubmitKyc payload o => snd (Main.submit_kyc payload o h)
  | SubmitProof proof o => snd (Main.submit_proof proof o h)
  | InitiateDonation donation o => snd (Main.initiate_donation donation o h)
  | DonationWebhook update => snd (Main.donation_webhook update h)
  | RecordBlockchainTx donation_id tx_hash =>
      snd (Main.record_blockchain_tx donation_id tx_hash h)
  | DiscoverStudents lat lng radius_km limit =>
      snd (Main.discover_students lat lng radius_km limit h)
  | GetTrust student_id => snd (Main.get_trust student_id h)
  end.

Definition serve_all (rs : list request) (h : handle) : handle :=
  fold_left (fun h r => serve r h) rs h.

(** What every reachable store satisfies: ids are unique within each
    collection, and no student has two KYC records. *)
Definition store_inv (h : handle) : Prop :=
  match h with
  | None => True
  | Some d =>
      (forall name, unique_ids (coll d name))
      /\ one_per_student (coll d "kycdocument")
  end.

(** On a connected store the computation ends on a connected store and
    keeps the ids of every collection unique. *)
Definition keeps_ids {A} (m : M A) : Prop :=
  forall d : Database,
    exists r d',
      m (Some d) = (r, Some d')
      /\ forall name, unique_ids (coll d name) -> unique_ids (coll d' name).

(** ASCII upper-casing, as [str.upper] acts on ASCII text. *)
Definition ascii_upper (s : string) : string :=
  string_of_list_ascii
    (map (fun c =>
            if ascii_between "a" "z" c
            then ascii_of_nat (nat_of_ascii c - 32)
            else c)
         (chars s)).

End Aux.

(** ** A small store and a few requests, for worked instances *)

Module Demo.
Import Store Schemas.

Definition asha_id : ObjectId := "65f1a2b3c4d5e6f708192a01".
Definition ravi_id : ObjectId := "65f1a2b3c4d5e6f708192a02".

Definition asha : document :=
  Doc asha_id
    (list_to_map
       [ ("full_name", VStr "Asha Rao");
         ("school_name", VStr "Hill View School");
         ("trust_score", VNum 0);
         ("kyc_status", VStr "pending") ]).

Definition ravi : document :=
  Doc ravi_id
    (list_to_map
       [ ("full_name", VStr "abc");
         ("school_name", VStr "Lake School");
         ("trust_score", VNum 0);
         ("kyc_status", VStr "not_submitted") ]).

Definition asha_kyc : document :=
  Doc "65f1a2b3c4d5e6f708192b01"
    (list_to_map [ ("student_id", VStr asha_id); ("status", VStr "pending") ]).

Definition asha_proof (n : nat) : document :=
  Doc (String (ascii_of_nat (48 + n)) "5f1a2b3c4d5e6f708192c00")
    (list_to_map [ ("student_id", VStr asha_id); ("title", VStr "receipt") ]).

Definition upi_donation : document :=
  Doc "65f1a2b3c4d5e6f708192d01"
    (list_to_map
       [ ("gateway", VStr "upi");
         ("status", VStr "created");
         ("payment_reference", VStr "EDC-upi-65f1a2b3c4d5e6f708192d01") ]).

(** Two students; one pending KYC record and eight proofs for the
    first; one donation. *)
Definition db : gmap string (list document) :=
  list_to_map
    [ ("student", [asha; ravi]);
      ("kycdocument", [asha_kyc]);
      ("proofsubmission", map asha_proof (seq 0 8));
      ("donation", [upi_donation]) ].

Definition o1 : oracle := Oracle "65f1a2b3c4d5e6f708192e01" 1700000000 1700000001.
Definition o2 : oracle := Oracle "65f1a2b3c4d5e6f708192e02" 1700000100 1700000101.

Definition donation (s : Donation.Scholarship) (amount : Q) (currency : string)
    : Donation.t :=
  Donation.Build None None None s amount currency Donation.upi
    Donation.succeeded (Some "chosen-by-client") None None.

Definition new_student (trust_score : Q) : Student.t :=
  Student.Build "Meera Nair" "meera@example.org" None "River School" None None
    None None None [] trust_score not_submitted None.

Definition kyc_for (student_id : string) (st : KYCDocument.Status) : KYCDocument.t :=
  KYCDocument.Build student_id "id.png" "card.png" None "selfie.png" st None.

Definition proof_for (student_id : string) : ProofSubmission.t :=
  ProofSubmission.Build student_id "fees receipt" None None None [] false.

Definition paid (reference : string) : Main.WebhookUpdate.t :=
  Main.WebhookUpdate.Build reference "succeeded" (Some "gw-77") None.

(** A matcher that knows nothing beyond the modelled patterns. *)
Definition no_engine : regex_engine := fun _ _ _ => false.

End Demo.

(** ** Theorems *)

Import Store Schemas Aux.

(** *** Running handlers on a connected store *)

Lemma bind_Some {A B} (m : M A) (k : A -> M B) h a h' :
  m h = (Ok a, h') -> bind m k h = k a h'.
Proof. intros E. unfold bind. now rewrite E. Qed.

Lemma bind_Raise {A B} (m : M A) (k : A -> M B) h e h' :
  m h = (Raise e, h') -> bind m k h = (Raise e, h').
Proof. intros E. unfold bind. now rewrite E. Qed.

Lemma find_one_Some name p (d : Database) :
  find_one name p (Some d) = (Ok (List.find p (coll d name)), Some d).
Proof. reflexivity. Qed.

Lemma count_documents_Some name p (d : Database) :
  count_documents name p (Some d)
  = (Ok (Z.of_nat (length (List.filter p (coll d name)))), Some d).
Proof. reflexivity. Qed.

Lemma subscript_db_Some (d : Database) : subscript_db (Some d) = (Ok tt, Some d).
Proof. reflexivity. Qed.

Lemma f_eq_id o (x : document) : f_eq "_id" (VOid o) x = has_id o x.
Proof. reflexivity. Qed.

(** *** The trust score *)

Lemma score_of_spec kyc n :
  Main.score_of kyc (Z.of_nat n) = Spec.trust_score (Spec.kyc_state_of kyc) n.
Proof.
  unfold Main.score_of, Spec.trust_score, Spec.clamp, Spec.proof_points,
    Spec.kyc_state_of, get_is.
  destruct kyc as [k|]; cbn [Spec.kyc_points]; [| f_equal; lia].
  destruct (doc_get k "status") as [[]|]; cbn [value_eqb Spec.kyc_points];
    try (f_equal; lia).
  destruct (String.eqb s "verified"); cbn [Spec.kyc_points]; [f_equal; lia |].
  destruct (String.eqb s "pending"); cbn [Spec.kyc_points]; f_equal; lia.
Qed.

Lemma score_of_range kyc n : 0 <= Main.score_of kyc n <= 100.
Proof. unfold Main.score_of. lia. Qed.

Lemma score_of_mono kyc n m : n <= m -> Main.score_of kyc n <= Main.score_of kyc m.
Proof.
  intros H. unfold Main.score_of.
  destruct kyc as [k|]; [destruct (get_is k "status" "verified");
    [| destruct (get_is k "status" "pending")] |]; lia.
Qed.

(** Reading the score on a connected store: what [compute_trust_score]
    does once the id parses. *)
Lemma compute_trust_score_Some (d : Database) student_id sid :
  ObjectId_of_str student_id = Some sid ->
  Main.compute_trust_score student_id (Some d)
  = match List.find (has_id sid) (coll d "student") with
    | None => (Raise (HTTPException 404 "Student not found"), Some d)
    | Some _ =>
        (Ok (Main.score_of
               (List.find (f_eq "student_id" (VStr student_id)) (coll d "kycdocument"))
               (Z.of_nat (length (Spec.proof_records d student_id)))),
         Some d)
    end.
Proof.
  intros E. unfold Main.compute_trust_score, Main.oid. rewrite E.
  unfold bind at 1. cbn [ret].
  erewrite bind_Some; [| apply find_one_Some].
  replace (List.find (f_eq "_id" (VOid sid))) with (List.find (has_id sid)) by reflexivity.
  destruct (List.find (has_id sid) (coll d "student")); [| reflexivity].
  erewrite bind_Some; [| apply find_one_Some].
  erewrite bind_Some; [| apply count_documents_Some].
  reflexivity.
Qed.

Lemma compute_trust_score_invalid h student_id :
  ObjectId_of_str student_id = None ->
  Main.compute_trust_score student_id h = (Raise (HTTPException 400 "Invalid ID"), h).
Proof.
  intros E. unfold Main.compute_trust_score, Main.oid. now rewrite E.
Qed.

Lemma compute_trust_score_handle h student_id r h' :
  Main.compute_trust_score student_id h = (r, h') -> h' = h.
Proof.
  destruct (ObjectId_of_str student_id) as [sid|] eqn:E.
  - destruct h as [d|].
    + rewrite (compute_trust_score_Some d _ sid E).
      destruct (List.find _ _); congruence.
    + unfold Main.compute_trust_score, Main.oid. rewrite E. cbn. congruence.
  - rewrite compute_trust_score_invalid by exact E. congruence.
Qed.

(** C1. For a student record that exists, [compute_trust_score] answers
    exactly the documented sum: 10, plus 30 when the student has a KYC
    record, plus a further 30 when that record is verified or a further
    10 when it is pending, plus 5 per proof submission up to 30, the
    whole clamped to [0,100]; and it writes nothing. *)
Theorem compute_trust_score_exact (d : Database) (student_id : string) (sid : ObjectId) :
  ObjectId_of_str student_id = Some sid ->
  (exists s, In s (coll d "student") /\ doc_id s = sid) ->
  Main.compute_trust_score student_id (Some d)
  = (Ok (Spec.trust_score
           (Spec.kyc_state_of (head (Spec.kyc_records d student_id)))
           (length (Spec.proof_records d student_id))),
     Some d).
Proof.
  intros E (s & Hin & Hid).
  rewrite (compute_trust_score_Some d _ sid E).
  destruct (List.find (has_id sid) (coll d "student")) eqn:F.
  - rewrite score_of_spec. do 3 f_equal.
    unfold Spec.kyc_records.
    induction (coll d "kycdocument") as [|k c IH]; [reflexivity|].
    cbn. destruct (f_eq "student_id" (VStr student_id) k); [reflexivity | exact IH].
  - exfalso. apply (find_none _ _ F) in Hin. unfold has_id in Hin.
    rewrite Hid, String.eqb_refl in Hin. discriminate.
Qed.

(** *** Collections of a database *)

Lemma coll_insert_eq (d : Database) name c : coll (<[name := c]> d) name = c.
Proof. unfold coll. now rewrite lookup_insert_eq. Qed.

Lemma coll_insert_ne (d : Database) name other c :
  name <> other -> coll (<[name := c]> d) other = coll d other.
Proof. intros H. unfold coll. now rewrite lookup_insert_ne. Qed.

Lemma find_app_fresh (p : document -> bool) c x :
  existsb p c = false -> List.find p (c ++ [x]) = if p x then Some x else None.
Proof.
  induction c as [|y c IH]; cbn; [reflexivity|].
  destruct (p y); cbn; [discriminate | exact IH].
Qed.

Lemma update_first_app_fresh p f c x :
  existsb p c = false ->
  update_first p f (c ++ [x]) = c ++ [if p x then f x else x].
Proof.
  induction c as [|y c IH]; cbn.
  - now destruct (p x).
  - destruct (p y); cbn; [discriminate|]. intros H. now rewrite IH.
Qed.

Lemma has_id_refl o data : has_id o (Doc o data) = true.
Proof. apply String.eqb_refl. Qed.

(** *** ObjectIds *)

Lemma lower_hex_is_hex c : is_lower_hex c = true -> is_hex c = true.
Proof. unfold is_hex. now intros ->. Qed.

Lemma lower_of_lower_hex c : is_lower_hex c = true -> lower c = c.
Proof.
  destruct c as [[] [] [] [] [] [] [] []]; vm_compute; congruence.
Qed.

Lemma map_lower_hex l : forallb is_lower_hex l = true -> map lower l = l.
Proof.
  induction l as [|c l IH]; cbn; [reflexivity|].
  intros [Hc Hl]%andb_prop. now rewrite IH, lower_of_lower_hex.
Qed.

Lemma forallb_lower_hex_is_hex l :
  forallb is_lower_hex l = true -> forallb is_hex l = true.
Proof.
  induction l as [|c l IH]; cbn; [reflexivity|].
  intros [Hc Hl]%andb_prop. now rewrite IH, lower_hex_is_hex.
Qed.

(** Parsing what [str] printed gives the id back. *)
Lemma ObjectId_of_str_canonical (o : ObjectId) :
  is_ObjectId o = true -> ObjectId_of_str o = Some o.
Proof.
  unfold is_ObjectId, ObjectId_of_str, lower_str.
  intros [Hlen Hhex]%andb_prop.
  rewrite Hlen, (forallb_lower_hex_is_hex _ Hhex). cbn.
  rewrite (map_lower_hex _ Hhex). unfold chars.
  now rewrite string_of_list_ascii_of_string.
Qed.

(** *** Inserting, then updating the new document by its id *)

Lemma insert_one_Some name data nid (d : Database) :
  existsb (has_id nid) (coll d name) = false ->
  insert_one name data nid (Some d)
  = (Ok nid, Some (<[name := coll d name ++ [Doc nid data]]> d)).
Proof. intros H. unfold insert_one, with_db. now rewrite H. Qed.

Lemma insert_one_duplicate name data nid (d : Database) :
  existsb (has_id nid) (coll d name) = true ->
  insert_one name data nid (Some d) = (Raise DuplicateKeyError, Some d).
Proof. intros H. unfold insert_one, with_db. now rewrite H. Qed.

Lemma create_document_Some name data o (d : Database) :
  existsb (has_id (new_id o)) (coll d name) = false ->
  Main.create_document name data o (Some d)
  = (Ok (new_id o),
     Some (<[name := coll d name ++ [Doc (new_id o) (stamped data o)]]> d)).
Proof.
  intros H. unfold Main.create_document.
  erewrite bind_Some; [| apply insert_one_Some, H]. reflexivity.
Qed.

Lemma update_new_document name upd nid data (d : Database) c :
  existsb (has_id nid) c = false ->
  update_one name (f_eq "_id" (VOid nid)) upd (Some (<[name := c ++ [Doc nid data]]> d))
  = (Ok tt, Some (<[name := c ++ [Doc nid (upd ∪ data)]]> d)).
Proof.
  intros H. unfold update_one, with_db. rewrite coll_insert_eq.
  replace (List.find (f_eq "_id" (VOid nid))) with (List.find (has_id nid)) by reflexivity.
  rewrite (find_app_fresh _ _ _ H), has_id_refl.
  replace (update_first (f_eq "_id" (VOid nid))) with (update_first (has_id nid))
    by reflexivity.
  rewrite (update_first_app_fresh _ _ _ _ H), has_id_refl.
  now rewrite insert_insert_eq.
Qed.

(** C6. Whatever the KYC record and the number of proofs, the score lies
    in [0,100]; one more proof never lowers it; and so it is for the
    score [compute_trust_score] answers from a store, before and after a
    proof record is added. *)
Theorem trust_score_bounded_monotone :
  (forall kyc n, 0 <= Main.score_of kyc n <= 100) /\
  (forall kyc n, Main.score_of kyc n <= Main.score_of kyc (n + 1)) /\
  (forall h student_id,
      match fst (Main.compute_trust_score student_id h) with
      | Ok s => 0 <= s <= 100
      | Raise _ => True
      end) /\
  (forall (d : Database) student_id proof,
      let d' := <["proofsubmission" := coll d "proofsubmission" ++ [proof]]> d in
      match fst (Main.compute_trust_score student_id (Some d)),
            fst (Main.compute_trust_score student_id (Some d')) with
      | Ok s, Ok s' => s <= s'
      | Ok _, Raise _ => False
      | Raise _, _ => True
      end).
Proof.
  split; [exact score_of_range |].
  split; [intros; apply score_of_mono; lia |].
  split.
  - intros h student_id.
    destruct (ObjectId_of_str student_id) as [sid|] eqn:E.
    + destruct h as [d|].
      * rewrite (compute_trust_score_Some d _ sid E).
        destruct (List.find _ _); cbn; [apply score_of_range | exact I].
      * unfold Main.compute_trust_score, Main.oid. rewrite E. exact I.
    + rewrite compute_trust_score_invalid by exact E. exact I.
  - intros d student_id proof d'.
    destruct (ObjectId_of_str student_id) as [sid|] eqn:E.
    + rewrite !(compute_trust_score_Some _ _ sid E).
      unfold d', Spec.proof_records.
      rewrite coll_insert_eq, !coll_insert_ne by discriminate.
      destruct (List.find (has_id sid) (coll d "student")); cbn; [| exact I].
      apply score_of_mono. rewrite List.filter_app, List.length_app. lia.
    + rewrite !compute_trust_score_invalid by exact E. exact I.
Qed.

(** *** Donation initiation *)

Lemma between_iff lo amt hi :
  Main.between lo amt hi = true <-> (lo <= amt /\ amt <= hi)%Q.
Proof.
  unfold Main.between. rewrite andb_true_iff, !Qle_bool_iff. tauto.
Qed.

Lemma fresh_in_spec o c : fresh_in o c = true -> existsb (has_id o) c = false.
Proof. unfold fresh_in. now destruct (existsb _ _). Qed.

Lemma initiate_donation_rejected don o h :
  passes_range_tests don = false ->
  exists detail, Main.initiate_donation don o h = (Raise (HTTPException 400 detail), h).
Proof.
  unfold passes_range_tests, Main.initiate_donation. intros H.
  destruct (Main.is_scholarship don "micro" && _ && _)%bool.
  - now exists Main.micro_detail.
  - cbn in H. apply negb_false_iff in H. rewrite H. now exists Main.big_detail.
Qed.

Lemma initiate_donation_accepted (d : Database) don o :
  passes_range_tests don = true ->
  is_ObjectId (new_id o) = true ->
  fresh_in (new_id o) (coll d "donation") = true ->
  Main.initiate_donation don o (Some d)
  = (Ok {| Main.reference :=
             "EDC-" +:+ Donation.Gateway_str (Donation.gateway don)
               +:+ "-" +:+ new_id o;
           Main.redirect_url := None;
           Main.status := "created" |},
     Some (<["donation" :=
              coll d "donation"
                ++ [Doc (new_id o)
                      (intent_update don o ∪ stamped (Donation.model_dump don) o)]]> d)).
Proof.
  unfold passes_range_tests, Main.initiate_donation.
  intros [H1 H2]%andb_prop Hid Hfresh%fresh_in_spec.
  apply negb_true_iff in H1, H2. rewrite H1, H2.
  erewrite bind_Some; [| apply create_document_Some, Hfresh].
  erewrite bind_Some; [| apply subscript_db_Some].
  unfold Main.oid. rewrite (ObjectId_of_str_canonical _ Hid).
  unfold bind at 1. cbn [ret].
  erewrite bind_Some; [| apply update_new_document, Hfresh].
  reflexivity.
Qed.

Lemma passes_range_tests_INR don :
  Donation.currency don = "INR" ->
  passes_range_tests don = true
  <-> Spec.within_tier (Donation.scholarship don) (Donation.amount don).
Proof.
  intros Hc. unfold passes_range_tests, Main.is_scholarship, Spec.within_tier.
  rewrite Hc. destruct (Donation.scholarship don); cbn -[Main.between].
  - rewrite andb_true_r, negb_involutive. apply between_iff.
  - rewrite negb_involutive. apply between_iff.
Qed.

Lemma passes_range_tests_other don :
  Donation.currency don <> "INR" -> passes_range_tests don = true.
Proof.
  intros Hc%String.eqb_neq. unfold passes_range_tests. rewrite Hc.
  now rewrite !andb_false_r.
Qed.

(** C2. On a connected store, a donation in INR is accepted exactly when
    its amount lies within the inclusive bounds of its tier (micro
    10..5000, big 10000..1000000) and is otherwise refused with a 400
    that leaves the store as it was; a donation in any other currency is
    accepted whatever its amount. *)
Theorem initiate_donation_range (d : Database) (don : Donation.t) (o : oracle) :
  is_ObjectId (new_id o) = true ->
  fresh_in (new_id o) (coll d "donation") = true ->
  (Donation.currency don = "INR" ->
     (Spec.within_tier (Donation.scholarship don) (Donation.amount don)
      <-> succeeds (Main.initiate_donation don o (Some d)))
     /\ (~ Spec.within_tier (Donation.scholarship don) (Donation.amount don)
         -> exists detail,
              Main.initiate_donation don o (Some d)
              = (Raise (HTTPException 400 detail), Some d)))
  /\ (Donation.currency don <> "INR" ->
      succeeds (Main.initiate_donation don o (Some d))).
Proof.
  intros Hid Hfresh. split.
  - intros Hc. pose proof (passes_range_tests_INR don Hc) as Hr.
    destruct (passes_range_tests don) eqn:P.
    + split.
      * split; [intros _ | intros _; now apply Hr].
        eexists _, _. now apply initiate_donation_accepted.
      * intros Hn. exfalso. apply Hn. now apply Hr.
    + destruct (initiate_donation_rejected don o (Some d) P) as [detail E].
      split.
      * split; [intros Hw%Hr; discriminate |].
        intros (a & h' & E'). congruence.
      * intros _. now exists detail.
  - intros Hc. eexists _, _.
    apply initiate_donation_accepted; auto using passes_range_tests_other.
Qed.

(** C3. A donation that was initiated successfully is answered with the
    reference [EDC-<gateway>-<id>], [<id>] being the id its record was
    given, with a null redirect URL and the status [created]; and the
    stored record carries that reference and that status. *)
Theorem initiate_donation_reference (d : Database) (don : Donation.t) (o : oracle)
    (resp : Main.PaymentIntentResponse) (h' : handle) :
  is_ObjectId (new_id o) = true ->
  Main.initiate_donation don o (Some d) = (Ok resp, h') ->
  Main.reference resp
  = "EDC-" +:+ Donation.Gateway_str (Donation.gateway don) +:+ "-" +:+ new_id o
  /\ Main.redirect_url resp = None
  /\ Main.status resp = "created"
  /\ exists d' stored,
       h' = Some d'
       /\ List.find (has_id (new_id o)) (coll d' "donation") = Some stored
       /\ doc_get stored "payment_reference" = Some (VStr (Main.reference resp))
       /\ doc_get stored "status" = Some (VStr "created")
       /\ length (coll d' "donation") = S (length (coll d "donation")).
Proof.
  intros Hid E.
  destruct (passes_range_tests don) eqn:P.
  2:{ destruct (initiate_donation_rejected don o (Some d) P) as [detail E'].
      congruence. }
  destruct (fresh_in (new_id o) (coll d "donation")) eqn:F.
  2:{ exfalso. revert E. unfold passes_range_tests in P.
      apply andb_prop in P as [H1 H2]. apply negb_true_iff in H1, H2.
      unfold Main.initiate_donation. rewrite H1, H2.
      unfold fresh_in in F. apply negb_false_iff in F.
      unfold Main.create_document.
      erewrite bind_Raise; [discriminate |].
      erewrite bind_Raise; [reflexivity |].
      now apply insert_one_duplicate. }
  rewrite (initiate_donation_accepted d don o P Hid F) in E.
  injection E as <- <-. cbn [Main.reference Main.redirect_url Main.status].
  repeat split.
  eexists _, _. split; [reflexivity |].
  rewrite coll_insert_eq, (find_app_fresh _ _ _ (fresh_in_spec _ _ F)), has_id_refl.
  split; [reflexivity |].
  unfold doc_get, intent_update. cbn [String.eqb Ascii.eqb Bool.eqb doc_fields].
  split; [| split].
  - apply lookup_union_Some_l, lookup_insert_eq.
  - apply lookup_union_Some_l. rewrite lookup_insert_ne by discriminate.
    apply lookup_singleton_eq.
  - rewrite List.length_app. cbn. lia.
Qed.

(** *** Webhooks *)

Lemma value_eqb_VStr v s : value_eqb v (VStr s) = true <-> v = VStr s.
Proof.
  destruct v; cbn; try (split; [discriminate | congruence]).
  rewrite String.eqb_eq. split; congruence.
Qed.

Lemma f_eq_str_true k s x :
  f_eq k (VStr s) x = true <-> doc_get x k = Some (VStr s).
Proof.
  unfold f_eq. destruct (doc_get x k) as [v|]; cbn.
  - rewrite value_eqb_VStr. split; congruence.
  - split; discriminate.
Qed.

Lemma webhook_dump_keeps k (u : Main.WebhookUpdate.t) :
  k <> "reference" -> k <> "status" -> k <> "gateway_tx" -> k <> "blockchain_tx" ->
  Main.WebhookUpdate.model_dump_exclude_none u !! k = None.
Proof.
  intros H1 H2 H3 H4. unfold Main.WebhookUpdate.model_dump_exclude_none.
  rewrite !lookup_insert_ne by congruence.
  apply lookup_union_None. unfold Main.WebhookUpdate.opt_entry.
  split; [destruct (Main.WebhookUpdate.gateway_tx u)
         | destruct (Main.WebhookUpdate.blockchain_tx u)];
    try apply lookup_empty; now apply lookup_singleton_ne.
Qed.

Lemma doc_get_apply_set_other upd x k :
  upd !! k = None -> doc_get (apply_set upd x) k = doc_get x k.
Proof.
  intros H. unfold doc_get, apply_set. cbn [doc_id doc_fields].
  destruct (String.eqb k "_id"); [reflexivity |].
  now rewrite lookup_union_r.
Qed.

Lemma apply_set_idem upd x : apply_set upd (apply_set upd x) = apply_set upd x.
Proof.
  unfold apply_set. cbn [doc_id doc_fields]. f_equal.
  now rewrite (assoc_L (∪)), (idemp_L (∪)).
Qed.

Lemma update_first_idem p f c :
  (forall x, p (f x) = p x) -> (forall x, f (f x) = f x) ->
  update_first p f (update_first p f c) = update_first p f c.
Proof.
  intros Hp Hf. induction c as [|x c IH]; cbn; [reflexivity |].
  destruct (p x) eqn:E; cbn.
  - now rewrite Hp, E, Hf.
  - now rewrite E, IH.
Qed.

Lemma find_update_first q p f c e :
  (forall x, q (f x) = q x) -> (forall x, doc_id (f x) = doc_id x) ->
  List.find q c = Some e ->
  exists e1, List.find q (update_first p f c) = Some e1 /\ doc_id e1 = doc_id e.
Proof.
  intros Hq Hid. induction c as [|x c IH]; cbn; [discriminate |].
  destruct (p x); cbn.
  - rewrite Hq. destruct (q x); [| now eauto].
    intros [= <-]. eauto.
  - destruct (q x); [| exact IH]. intros [= <-]. eauto.
Qed.

Lemma find_some_has_id q c e :
  List.find q c = Some e -> exists e0, List.find (has_id (doc_id e)) c = Some e0.
Proof.
  intros F. apply find_some in F as [Hin _].
  destruct (List.find (has_id (doc_id e)) c) eqn:G; [eauto |].
  apply (find_none _ _ G) in Hin. unfold has_id in Hin.
  now rewrite String.eqb_refl in Hin.
Qed.

(** What a webhook does on a connected store. *)
Lemma donation_webhook_Some (d : Database) (u : Main.WebhookUpdate.t) :
  Main.donation_webhook u (Some d)
  = match List.find (f_eq "payment_reference" (VStr (Main.WebhookUpdate.reference u)))
            (coll d "donation") with
    | None => (Raise (HTTPException 404 "Donation not found"), Some d)
    | Some e =>
        (Ok true,
         Some (<["donation" :=
                  update_first (has_id (doc_id e))
                    (apply_set (Main.WebhookUpdate.model_dump_exclude_none u))
                    (coll d "donation")]> d))
    end.
Proof.
  unfold Main.donation_webhook.
  erewrite bind_Some; [| apply find_one_Some].
  destruct (List.find _ _) as [e|] eqn:F; [| reflexivity].
  destruct (find_some_has_id _ _ _ F) as [e0 G].
  unfold bind, update_one, with_db.
  replace (List.find (f_eq "_id" (VOid (doc_id e)))) with (List.find (has_id (doc_id e)))
    by reflexivity.
  now rewrite G.
Qed.

(** C4. A webhook whose reference is the [payment_reference] of no
    stored donation is answered with a 404, and the store is exactly
    what it was: nothing created, nothing changed. *)
Theorem donation_webhook_unknown (d : Database) (u : Main.WebhookUpdate.t) :
  (forall x, In x (coll d "donation") ->
     doc_get x "payment_reference" <> Some (VStr (Main.WebhookUpdate.reference u))) ->
  Main.donation_webhook u (Some d)
  = (Raise (HTTPException 404 "Donation not found"), Some d).
Proof.
  intros H. rewrite donation_webhook_Some.
  destruct (List.find _ _) as [e|] eqn:F; [| reflexivity].
  apply find_some in F as [Hin Hq]. exfalso.
  apply (H e); [exact Hin | now apply f_eq_str_true].
Qed.

Lemma donation_webhook_known (d : Database) (u : Main.WebhookUpdate.t) x :
  In x (coll d "donation") ->
  doc_get x "payment_reference" = Some (VStr (Main.WebhookUpdate.reference u)) ->
  fst (Main.donation_webhook u (Some d)) = Ok true.
Proof.
  intros Hin Hx. rewrite donation_webhook_Some.
  destruct (List.find _ _) eqn:F; [reflexivity |].
  apply (find_none _ _ F) in Hin.
  apply f_eq_str_true in Hx. congruence.
Qed.

(** C5. Delivering the same webhook a second time changes nothing: it
    is answered as the first delivery was and leaves the store in the
    state the first delivery left it in. *)
Theorem donation_webhook_idempotent (h : handle) (u : Main.WebhookUpdate.t) :
  Main.donation_webhook u (snd (Main.donation_webhook u h))
  = Main.donation_webhook u h.
Proof.
  destruct h as [d|]; [| reflexivity].
  rewrite (donation_webhook_Some d).
  destruct (List.find _ (coll d "donation")) as [e|] eqn:F; cbn [snd].
  2:{ rewrite donation_webhook_Some. now rewrite F. }
  rewrite donation_webhook_Some, coll_insert_eq.
  set (upd := Main.WebhookUpdate.model_dump_exclude_none u).
  assert (Hq : forall x,
             f_eq "payment_reference" (VStr (Main.WebhookUpdate.reference u))
               (apply_set upd x)
             = f_eq "payment_reference" (VStr (Main.WebhookUpdate.reference u)) x).
  { intros x. unfold f_eq.
    now rewrite doc_get_apply_set_other by (apply webhook_dump_keeps; discriminate). }
  destruct (find_update_first _ (has_id (doc_id e)) _ _ _ Hq (fun _ => eq_refl) F)
    as (e1 & -> & ->).
  rewrite update_first_idem; [| reflexivity | apply apply_set_idem].
  now rewrite insert_insert_eq.
Qed.

(** *** Computations that leave a collection alone *)

Lemma preserves_ret {A} name (a : A) : preserves name (ret a).
Proof. intros d. now eexists _, _. Qed.

Lemma preserves_raise {A} name e : preserves name (@raise A e).
Proof. intros d. now eexists _, _. Qed.

Lemma preserves_bind {A B} name (m : M A) (k : A -> M B) :
  preserves name m -> (forall a, preserves name (k a)) -> preserves name (bind m k).
Proof.
  intros Hm Hk d. destruct (Hm d) as ([a|e] & d1 & E & C).
  - destruct (Hk a d1) as (r & d2 & E2 & C2).
    exists r, d2. rewrite (bind_Some _ _ _ _ _ E). split; congruence.
  - exists (Raise e), d1. now rewrite (bind_Raise _ _ _ _ _ E).
Qed.

Lemma preserves_try_except {A} name (body : M A) handler :
  preserves name body -> (forall e, preserves name (handler e)) ->
  preserves name (try_except body handler).
Proof.
  intros Hm Hk d. unfold try_except. destruct (Hm d) as ([a|e] & d1 & -> & C).
  - now exists (Ok a), d1.
  - destruct (Hk e d1) as (r & d2 & E2 & C2). exists r, d2. split; congruence.
Qed.

Lemma preserves_subscript_db name : preserves name subscript_db.
Proof. intros d. now eexists _, _. Qed.

Lemma preserves_find_one name other p : preserves name (find_one other p).
Proof. intros d. now eexists _, _. Qed.

Lemma preserves_count_documents name other p : preserves name (count_documents other p).
Proof. intros d. now eexists _, _. Qed.

Lemma preserves_find_limit name other p n : preserves name (find_limit other p n).
Proof. intros d. now eexists _, _. Qed.

Lemma preserves_oid name s : preserves name (Main.oid s).
Proof. intros d. unfold Main.oid. destruct (ObjectId_of_str s); now eexists _, _. Qed.

Lemma preserves_ObjectId_new name s : preserves name (Main.ObjectId_new s).
Proof.
  intros d. unfold Main.ObjectId_new. destruct (ObjectId_of_str s); now eexists _, _.
Qed.

Lemma preserves_update_one name other p upd :
  other <> name -> preserves name (update_one other p upd).
Proof.
  intros H d. unfold update_one, with_db.
  destruct (List.find p (coll d other)); eexists _, _; split; try reflexivity.
  now apply coll_insert_ne.
Qed.

Lemma preserves_create_document name other data o :
  other <> name -> preserves name (Main.create_document other data o).
Proof.
  intros H d. unfold Main.create_document, bind, insert_one, with_db.
  destruct (existsb _ _); eexists _, _; split; try reflexivity.
  now apply coll_insert_ne.
Qed.

Lemma preserves_compute_trust_score name s : preserves name (Main.compute_trust_score s).
Proof.
  intros d. destruct (Main.compute_trust_score s (Some d)) as [r h'] eqn:E.
  rewrite (compute_trust_score_handle _ _ _ _ E). now eexists _, _.
Qed.

Create HintDb preserves.
#[local] Hint Resolve preserves_ret preserves_raise preserves_subscript_db
  preserves_find_one preserves_count_documents preserves_find_limit preserves_oid
  preserves_ObjectId_new preserves_compute_trust_score : preserves.

Ltac preserves_step :=
  first
    [ solve [auto with preserves]
    | apply preserves_update_one; discriminate
    | apply preserves_create_document; discriminate
    | apply preserves_try_except; [| intros ?]
    | apply preserves_bind; [| intros ?] ].

(** *** Creating a student *)

Lemma student_dump_other_field (student : Student.t) :
  Student.model_dump student !! "full_name" = Some (VStr (Student.full_name student)).
Proof. reflexivity. Qed.

(** C9. Whatever [trust_score] the request carries, the student record
    that [create_student] leaves in the store has [trust_score] 0.0; the
    rest of the record is the request as it was dumped. *)
Theorem create_student_trust_score (d : Database) (student : Student.t) (o : oracle) :
  is_ObjectId (new_id o) = true ->
  fresh_in (new_id o) (coll d "student") = true ->
  exists d' stored,
    Main.create_student student o (Some d) = (Ok (new_id o), Some d')
    /\ coll d' "student" = coll d "student" ++ [stored]
    /\ doc_id stored = new_id o
    /\ doc_get stored "trust_score" = Some (VNum 0)
    /\ forall k, k <> "trust_score" ->
         doc_fields stored !! k = stamped (Student.model_dump student) o !! k.
Proof.
  intros Hid Hfresh%fresh_in_spec.
  eexists _, (Doc (new_id o) ({["trust_score" := VNum 0]}
                               ∪ stamped (Student.model_dump student) o)).
  unfold Main.create_student.
  erewrite bind_Some; [| apply create_document_Some, Hfresh].
  erewrite bind_Some; [| apply subscript_db_Some].
  unfold Main.ObjectId_new. rewrite (ObjectId_of_str_canonical _ Hid).
  unfold bind at 1. cbn [ret].
  erewrite bind_Some; [| apply update_new_document, Hfresh].
  split; [reflexivity |]. rewrite coll_insert_eq.
  split; [reflexivity |]. split; [reflexivity |].
  split.
  - unfold doc_get. cbn [String.eqb Ascii.eqb Bool.eqb doc_fields].
    apply lookup_union_Some_l, lookup_singleton_eq.
  - intros k Hk. cbn [doc_fields].
    rewrite lookup_union_r; [reflexivity |]. now apply lookup_singleton_ne.
Qed.

(** *** Submitting a proof *)

(** The refresh inside the [try] of [submit_proof] never touches the
    proof collection. *)
Lemma refresh_preserves_proofs student_id :
  preserves "proofsubmission"
    (try_except
       (bind (Main.compute_trust_score student_id) (fun ts =>
        bind subscript_db (fun _ =>
        bind (Main.oid student_id) (fun sid =>
        bind (update_one "student" (f_eq "_id" (VOid sid))
                {["trust_score" := Main.VScore ts]}) (fun _ =>
        ret (Some ts))))))
       (fun _ => ret None)).
Proof. repeat preserves_step. Qed.

(** C10. On a connected store, [submit_proof] answers for every proof,
    also for one whose [student_id] names no student or is no id at
    all: the proof record is appended as it was dumped, the answer
    carries its id, and the trust score in the answer is null exactly
    when the recomputation raised. *)
Theorem submit_proof_never_raises (d : Database) (proof : ProofSubmission.t)
    (o : oracle) :
  fresh_in (new_id o) (coll d "proofsubmission") = true ->
  let record := Doc (new_id o) (stamped (ProofSubmission.model_dump proof) o) in
  let d1 := <["proofsubmission" := coll d "proofsubmission" ++ [record]]> d in
  exists ts d',
    Main.submit_proof proof o (Some d) = (Ok (new_id o, ts), Some d')
    /\ coll d' "proofsubmission" = coll d "proofsubmission" ++ [record]
    /\ match fst (Main.compute_trust_score (ProofSubmission.student_id proof) (Some d1)) with
       | Ok s => ts = Some s
       | Raise _ => ts = None /\ d' = d1
       end.
Proof.
  intros Hfresh%fresh_in_spec record d1.
  unfold Main.submit_proof.
  rewrite (bind_Some _ _ _ _ _ (create_document_Some _ _ _ _ Hfresh)).
  fold record. fold d1.
  set (sid := ProofSubmission.student_id proof).
  destruct (refresh_preserves_proofs sid d1) as (r & d2 & E & C).
  unfold d1 in C. rewrite coll_insert_eq in C.
  unfold bind at 1. rewrite E.
  revert E. unfold try_except.
  destruct (Main.compute_trust_score sid (Some d1)) as [[s|e] h1] eqn:Ec;
    pose proof (compute_trust_score_handle _ _ _ _ Ec) as ->.
  - rewrite (bind_Some _ _ _ _ _ Ec).
    rewrite (bind_Some _ _ _ _ _ (subscript_db_Some d1)).
    destruct (ObjectId_of_str sid) as [i|] eqn:Ei.
    2:{ rewrite compute_trust_score_invalid in Ec by exact Ei. discriminate. }
    unfold Main.oid. rewrite Ei. unfold bind at 1. cbn [ret].
    unfold bind, update_one, with_db.
    destruct (List.find _ (coll d1 "student")); cbn [ret fst];
      intros [= <- _]; now exists (Some s), d2.
  - rewrite (bind_Raise _ _ _ _ _ Ec). cbn [ret fst].
    intros [= <- <-]. now exists None, d1.
Qed.

(** *** KYC submissions *)

Lemma map_doc_id_update_first p f c :
  (forall x, doc_id (f x) = doc_id x) ->
  map doc_id (update_first p f c) = map doc_id c.
Proof.
  intros H. induction c as [|x c IH]; cbn; [reflexivity |].
  destruct (p x); cbn; congruence.
Qed.

Lemma has_id_In o c : existsb (has_id o) c = false -> ~ In o (map doc_id c).
Proof.
  induction c as [|x c IH]; cbn; [tauto |].
  intros [Hx Hc]%orb_false_elim [E | Hin]; [| now apply IH].
  unfold has_id in Hx. rewrite E, String.eqb_refl in Hx. discriminate.
Qed.

(** With unique ids, updating by the id of a stored document rewrites
    that very document. *)
Lemma update_first_unique f c e :
  List.NoDup (map doc_id c) -> In e c ->
  exists l1 l2,
    c = l1 ++ e :: l2
    /\ update_first (has_id (doc_id e)) f c = l1 ++ f e :: l2.
Proof.
  induction c as [|x c IH]; cbn; [tauto |].
  intros Hnd [-> | Hin].
  - exists [], c. unfold has_id. now rewrite String.eqb_refl.
  - apply List.NoDup_cons_iff in Hnd as [Hx Hnd].
    destruct (IH Hnd Hin) as (l1 & l2 & -> & E).
    exists (x :: l1), l2. split; [reflexivity |].
    destruct (has_id (doc_id e) x) eqn:Hid.
    + exfalso. apply Hx. apply String.eqb_eq in Hid. rewrite Hid.
      apply in_map, in_or_app. right. now left.
    + cbn. now rewrite E.
Qed.

Lemma find_first_unique q l1 e l2 :
  List.NoDup (map doc_id (l1 ++ e :: l2)) ->
  List.find q (l1 ++ e :: l2) = Some e ->
  existsb q l1 = false.
Proof.
  induction l1 as [|x l1 IH]; cbn; [reflexivity |].
  intros [Hx Hnd]%List.NoDup_cons_iff. destruct (q x).
  - intros [= ->]. exfalso. apply Hx, in_map, in_or_app. right. now left.
  - now apply IH.
Qed.

Lemma find_app_first (q : document -> bool) l1 x l2 :
  existsb q l1 = false -> q x = true -> List.find q (l1 ++ x :: l2) = Some x.
Proof.
  induction l1 as [|y l1 IH]; cbn; [now intros _ -> |].
  destruct (q y); cbn; [discriminate | exact IH].
Qed.

Lemma filter_length_replace (q : document -> bool) l1 x y l2 :
  q y = q x ->
  length (List.filter q (l1 ++ y :: l2)) = length (List.filter q (l1 ++ x :: l2)).
Proof.
  intros H. rewrite !List.filter_app, !List.length_app. cbn. rewrite H.
  now destruct (q x).
Qed.

Lemma filter_find_none (q : document -> bool) c :
  List.find q c = None -> List.filter q c = [].
Proof.
  induction c as [|x c IH]; cbn; [reflexivity |].
  destruct (q x); [discriminate | exact IH].
Qed.

Lemma kyc_dump_student_id (payload : KYCDocument.t) :
  KYCDocument.model_dump payload !! "student_id"
  = Some (VStr (KYCDocument.student_id payload)).
Proof. reflexivity. Qed.

Lemma stamped_lookup data o k :
  k <> "created_at" -> k <> "updated_at" -> stamped data o !! k = data !! k.
Proof. intros H1 H2. unfold stamped. now rewrite !lookup_insert_ne by congruence. Qed.

(** Overwriting a student's record with a submission for that student
    does not change which student the record belongs to. *)
Lemma kyc_overwrite_same_student (payload : KYCDocument.t) e v :
  f_eq "student_id" (VStr (KYCDocument.student_id payload)) e = true ->
  f_eq "student_id" v (apply_set (KYCDocument.model_dump payload) e)
  = f_eq "student_id" v e.
Proof.
  intros H%f_eq_str_true. unfold f_eq. rewrite H.
  unfold doc_get, apply_set in *. cbn [String.eqb Ascii.eqb Bool.eqb doc_fields] in *.
  now rewrite (lookup_union_Some_l _ _ _ _ (kyc_dump_student_id payload)).
Qed.

Lemma kyc_after_unique c payload o :
  unique_ids c -> unique_ids (kyc_after c payload o).
Proof.
  unfold unique_ids, kyc_after. intros H.
  destruct (List.find _ c) as [e|].
  - now rewrite map_doc_id_update_first.
  - destruct (existsb _ c) eqn:F; [exact H |].
    rewrite map_app. cbn. apply List.NoDup_app; auto.
    + apply List.NoDup_cons; [tauto | apply List.NoDup_nil].
    + intros x Hx [<- | []]. now apply (has_id_In _ _ F).
Qed.

Lemma kyc_after_one_per_student c payload o :
  unique_ids c -> one_per_student c -> one_per_student (kyc_after c payload o).
Proof.
  unfold unique_ids, one_per_student, kyc_after. intros Hu H s.
  destruct (List.find _ c) as [e|] eqn:F.
  - pose proof (find_some _ _ F) as [Hin Hq].
    destruct (update_first_unique (apply_set (KYCDocument.model_dump payload))
                c e Hu Hin) as (l1 & l2 & Ec & ->).
    rewrite filter_length_replace with (x := e)
      by now apply kyc_overwrite_same_student.
    rewrite <- Ec. apply H.
  - destruct (existsb _ c); [apply H |].
    rewrite List.filter_app, List.length_app. cbn.
    destruct (f_eq "student_id" (VStr s) _) eqn:Q; cbn; [| specialize (H s); lia].
    apply f_eq_str_true in Q.
    change (stamped (KYCDocument.model_dump payload) o !! "student_id"
            = Some (VStr s)) in Q.
    rewrite stamped_lookup, kyc_dump_student_id in Q by discriminate.
    injection Q as <-. now rewrite (filter_find_none _ _ F).
Qed.

(** The effect of [submit_kyc] on the KYC collection of a connected
    store, whatever it answers. *)
Lemma submit_kyc_kyc_coll (d : Database) payload o :
  exists d',
    snd (Main.submit_kyc payload o (Some d)) = Some d'
    /\ coll d' "kycdocument" = kyc_after (coll d "kycdocument") payload o.
Proof.
  unfold Main.submit_kyc, kyc_after.
  rewrite (bind_Some _ _ _ _ _ (find_one_Some _ _ d)).
  match goal with
  | |- context [bind _ ?k] =>
      assert (Hrest : forall a, preserves "kycdocument" (k a))
        by (intros a; repeat preserves_step)
  end.
  destruct (List.find _ (coll d "kycdocument")) as [e|] eqn:F.
  - destruct (find_some_has_id _ _ _ F) as [e0 G].
    unfold bind at 1. unfold bind at 1. unfold update_one at 1, with_db.
    replace (List.find (f_eq "_id" (VOid (doc_id e))))
      with (List.find (has_id (doc_id e))) by reflexivity.
    rewrite G. cbn [ret].
    match goal with
    | |- context [bind _ _ (Some ?d1)] =>
        destruct (Hrest (Main.str_of_ObjectId (doc_id e)) d1) as (r & d' & E & C)
    end.
    rewrite E. exists d'. split; [reflexivity |].
    rewrite C. apply coll_insert_eq.
  - unfold bind at 1. unfold Main.create_document, bind at 1, insert_one, with_db.
    destruct (existsb _ _).
    + now exists d.
    + cbn [ret].
      match goal with
      | |- context [bind _ _ (Some ?d1)] =>
          destruct (Hrest (Main.str_of_ObjectId (new_id o)) d1) as (r & d' & E & C)
      end.
      rewrite E. exists d'. split; [reflexivity |].
      rewrite C. apply coll_insert_eq.
Qed.

Lemma submit_kyc_inv h payload o :
  kyc_inv h -> kyc_inv (snd (Main.submit_kyc payload o h)).
Proof.
  destruct h as [d|]; [| intros _; exact I].
  intros [Hu Ho]. destruct (submit_kyc_kyc_coll d payload o) as (d' & -> & C).
  unfold kyc_inv. rewrite C.
  auto using kyc_after_unique, kyc_after_one_per_student.
Qed.

Lemma submit_kyc_all_inv reqs h : kyc_inv h -> kyc_inv (Main.submit_kyc_all reqs h).
Proof.
  revert h. induction reqs as [|[payload o] reqs IH]; cbn; [auto |].
  intros h H. now apply IH, submit_kyc_inv.
Qed.

(** C7. A KYC collection with at most one record per student (and
    unique ids) still has at most one record per student after any
    number of KYC submissions; and a submission for a student whose
    record exists rewrites that record where it stands: the collection
    keeps its ids and their order, and the student's record is the old
    one with the submitted fields set. *)
Theorem kyc_one_record_per_student (d : Database) :
  kyc_inv (Some d) ->
  (forall reqs, kyc_inv (Main.submit_kyc_all reqs (Some d)))
  /\ (forall payload o e,
        List.find (f_eq "student_id" (VStr (KYCDocument.student_id payload)))
          (coll d "kycdocument") = Some e ->
        exists d',
          snd (Main.submit_kyc payload o (Some d)) = Some d'
          /\ map doc_id (coll d' "kycdocument") = map doc_id (coll d "kycdocument")
          /\ List.find (f_eq "student_id" (VStr (KYCDocument.student_id payload)))
               (coll d' "kycdocument")
             = Some (apply_set (KYCDocument.model_dump payload) e)).
Proof.
  intros Hinv. split; [intros reqs; now apply submit_kyc_all_inv |].
  intros payload o e F. destruct Hinv as [Hu _].
  destruct (submit_kyc_kyc_coll d payload o) as (d' & E & C).
  exists d'. split; [exact E |]. rewrite C. unfold kyc_after. rewrite F.
  split; [now apply map_doc_id_update_first |].
  pose proof (find_some _ _ F) as [Hin Hq].
  destruct (update_first_unique (apply_set (KYCDocument.model_dump payload))
              _ e Hu Hin) as (l1 & l2 & Ec & ->).
  rewrite Ec in F, Hu. apply find_app_first.
  - exact (find_first_unique _ _ _ _ Hu F).
  - now rewrite kyc_overwrite_same_student.
Qed.

(** Starting from a store without KYC records, every sequence of KYC
    submissions ends with at most one record per student. *)
Corollary kyc_one_record_from_empty (d : Database) reqs :
  coll d "kycdocument" = [] -> kyc_inv (Main.submit_kyc_all reqs (Some d)).
Proof.
  intros E. apply submit_kyc_all_inv. unfold kyc_inv, unique_ids, one_per_student.
  rewrite E. split; [apply List.NoDup_nil | intros s; cbn; lia].
Qed.

(** *** Discovery *)

Lemma limit_docs_incl {A} n (l : list A) x : In x (limit_docs n l) -> In x l.
Proof.
  unfold limit_docs. destruct (n =? 0)%Z; [auto |].
  intros H. rewrite <- (firstn_skipn (Z.abs_nat n) l). apply in_or_app. now left.
Qed.

Lemma limit_docs_length {A} n (l : list A) :
  0 < n -> Z.of_nat (length (limit_docs n l)) <= n.
Proof.
  intros H. unfold limit_docs.
  destruct (Z.eqb_spec n 0) as [-> | _]; [lia |].
  pose proof (firstn_le_length (Z.abs_nat n) l). lia.
Qed.

Lemma get_documents_Some (d : Database) name flt limit :
  Backend.get_documents name flt limit (Some d)
  = (Ok (map Backend.with_str_id (limit_docs limit (List.filter flt (coll d name)))),
     Some d).
Proof. reflexivity. Qed.

Lemma rx_parse_plain qs :
  forallb (fun c => is_ascii7 c && negb (is_meta c)) qs = true ->
  rx_parse qs = Some (map RxChar qs).
Proof.
  induction qs as [|c qs IH]; cbn [forallb rx_parse map]; [reflexivity |].
  intros [[Ha Hm]%andb_prop Hq]%andb_prop.
  rewrite (IH Hq). unfold rx_of_char. rewrite Ha. cbn [negb].
  apply negb_true_iff in Hm.
  destruct (Ascii.eqb_spec c ".") as [-> | _]; [discriminate |].
  now rewrite Hm.
Qed.

Lemma rx_match_here_plain qs s :
  rx_match_here true (map RxChar qs) s
  = Spec.is_prefix (map lower qs) (map lower s).
Proof.
  revert s. induction qs as [|c qs IH]; intros [|b s]; cbn; try reflexivity.
  now rewrite IH.
Qed.

Lemma rx_search_plain qs s :
  rx_search true (map RxChar qs) s
  = Spec.is_substring (map lower qs) (map lower s).
Proof.
  induction s as [|b s IH].
  - cbn. now rewrite (rx_match_here_plain qs []).
  - cbn [rx_search map Spec.is_substring]. now rewrite IH, rx_match_here_plain.
Qed.

(** On plain queries over ASCII text, matching is case-insensitive
    containment, whatever the engine does elsewhere. *)
Lemma regex_search_plain engine q v :
  plain_query q = true -> ascii_text v = true ->
  regex_search engine q "i" v = Spec.contains_ci q v.
Proof.
  unfold plain_query, ascii_text, regex_search, Spec.contains_ci.
  intros Hq Hv. rewrite (rx_parse_plain _ Hq), Hv. cbn [String.eqb Ascii.eqb Bool.eqb].
  apply rx_search_plain.
Qed.

Lemma f_regex_field_matches engine k q st :
  f_regex engine k q "i" st = true -> field_matches engine k q st.
Proof.
  unfold f_regex, field_matches.
  destruct (doc_get st k) as [[]|]; try discriminate. eauto.
Qed.

(** C8, as the code has it. With no filter and a positive [limit],
    discovery answers at most [limit] students, in either backend. With
    a free-text query it answers only students of the store whose
    [full_name] or [school_name] matches the query read as a
    case-insensitive regular expression; for a plain query over ASCII
    text, matching is containment of the query as a case-insensitive
    substring. *)
Theorem discover_students_sound (engine : regex_engine) (d : Database)
    (q : option string) (limit : Z) :
  (0 < limit -> Backend.truthy q = false ->
     exists out,
       Backend.discover_students engine q limit (Some d) = (Ok out, Some d)
       /\ Z.of_nat (length out) <= limit)
  /\ (0 < limit ->
      forall lat lng radius_km, (lat = None \/ lng = None) ->
      exists out,
        Main.discover_students lat lng radius_km limit (Some d) = (Ok out, Some d)
        /\ Z.of_nat (length out) <= limit)
  /\ (forall s, q = Some s -> s <> "" ->
      exists out,
        Backend.discover_students engine q limit (Some d) = (Ok out, Some d)
        /\ forall x, In x out ->
             exists st, In st (coll d "student")
               /\ x = Backend.with_str_id st
               /\ (field_matches engine "full_name" s st
                   \/ field_matches engine "school_name" s st))
  /\ (forall s v, plain_query s = true -> ascii_text v = true ->
        regex_search engine s "i" v = Spec.contains_ci s v).
Proof.
  split; [| split; [| split]].
  - intros Hl Hq. unfold Backend.discover_students. rewrite Hq, get_documents_Some.
    eexists. split; [reflexivity |]. rewrite length_map. now apply limit_docs_length.
  - intros Hl lat lng radius_km Hnone. eexists.
    split.
    + unfold Main.discover_students.
      assert (match lat, lng with
              | Some _, Some _ => f_ne_null "location"
              | _, _ => f_all
              end = f_all) as -> by (destruct lat, lng, Hnone; congruence).
      reflexivity.
    + rewrite length_map. now apply limit_docs_length.
  - intros s -> Hs. unfold Backend.discover_students, Backend.truthy.
    apply String.eqb_neq in Hs. rewrite Hs. cbn [negb default].
    rewrite get_documents_Some. eexists. split; [reflexivity |].
    intros x (st & <- & Hst%limit_docs_incl)%in_map_iff.
    apply filter_In in Hst as [Hin Hf]. exists st. repeat split; auto.
    unfold f_or in Hf. apply orb_prop in Hf as [Hf | Hf];
      [left | right]; now apply f_regex_field_matches.
  - intros s v. apply regex_search_plain.
Qed.

(** *** Worked instances *)

(** A pending KYC record and eight proofs: 10 + 30 + 10 + 30 = 80. *)
Lemma compute_trust_score_exact_witness :
  Main.compute_trust_score Demo.asha_id (Some Demo.db) = (Ok 80, Some Demo.db).
Proof.
  exact (compute_trust_score_exact Demo.db Demo.asha_id Demo.asha_id eq_refl
           (ex_intro _ Demo.asha (conj (or_introl eq_refl) eq_refl))).
Defined.

(** No KYC record and no proof: the base score. *)
Lemma compute_trust_score_base :
  Main.compute_trust_score Demo.ravi_id (Some Demo.db) = (Ok 10, Some Demo.db).
Proof. reflexivity. Qed.

Lemma score_of_verified_no_proofs :
  Main.score_of (Some (Doc Demo.asha_id {["status" := VStr "verified"]})) 0 = 70.
Proof. reflexivity. Qed.

(** The bounds of the micro tier are inclusive, and only INR is
    checked. *)
Lemma initiate_donation_range_witness :
  succeeds (Main.initiate_donation (Demo.donation Donation.micro 5000 "INR")
              Demo.o1 (Some Demo.db))
  /\ ~ succeeds (Main.initiate_donation (Demo.donation Donation.micro 5001 "INR")
                   Demo.o1 (Some Demo.db))
  /\ ~ succeeds (Main.initiate_donation (Demo.donation Donation.micro 5 "INR")
                   Demo.o1 (Some Demo.db))
  /\ succeeds (Main.initiate_donation (Demo.donation Donation.big 1000000 "INR")
                 Demo.o1 (Some Demo.db))
  /\ succeeds (Main.initiate_donation (Demo.donation Donation.micro 5 "USD")
                 Demo.o1 (Some Demo.db)).
Proof.
  pose proof (fun don =>
    initiate_donation_range Demo.db don Demo.o1 eq_refl eq_refl) as T.
  repeat split.
  - apply (proj1 (T _)); [reflexivity |]. split; vm_compute; discriminate.
  - intros H. apply (proj1 (T _)) in H; [| reflexivity].
    destruct H as [_ H]. vm_compute in H. now apply H.
  - intros H. apply (proj1 (T _)) in H; [| reflexivity].
    destruct H as [H _]. vm_compute in H. now apply H.
  - apply (proj1 (T _)); [reflexivity |]. split; vm_compute; discriminate.
  - apply (proj2 (T _)). discriminate.
Defined.

Lemma initiate_donation_reference_witness :
  exists resp h',
    Main.initiate_donation (Demo.donation Donation.micro 250 "INR") Demo.o1 (Some Demo.db)
    = (Ok resp, h')
    /\ Main.reference resp = "EDC-upi-65f1a2b3c4d5e6f708192e01"
    /\ Main.redirect_url resp = None
    /\ Main.status resp = "created".
Proof.
  destruct (Main.initiate_donation (Demo.donation Donation.micro 250 "INR")
              Demo.o1 (Some Demo.db)) as [[resp|e] h'] eqn:E; [| vm_compute in E; discriminate].
  exists resp, h'. split; [reflexivity |].
  destruct (initiate_donation_reference Demo.db _ Demo.o1 resp h' eq_refl E)
    as (H1 & H2 & H3 & _).
  auto.
Defined.

Lemma donation_webhook_unknown_witness :
  Main.donation_webhook (Demo.paid "EDC-upi-000000000000000000000000") (Some Demo.db)
  = (Raise (HTTPException 404 "Donation not found"), Some Demo.db).
Proof.
  apply (donation_webhook_unknown Demo.db).
  intros x [<- | []]. vm_compute. discriminate.
Defined.

(** A paid webhook for the stored donation sets its status. *)
Lemma donation_webhook_paid :
  exists d' stored,
    Main.donation_webhook (Demo.paid "EDC-upi-65f1a2b3c4d5e6f708192d01") (Some Demo.db)
    = (Ok true, Some d')
    /\ coll d' "donation" = [stored]
    /\ doc_get stored "status" = Some (VStr "succeeded")
    /\ doc_get stored "gateway_tx" = Some (VStr "gw-77").
Proof. eexists _, _. repeat split; vm_compute; reflexivity. Qed.

Lemma kyc_one_record_per_student_witness :
  kyc_inv (Main.submit_kyc_all
             [ (Demo.kyc_for Demo.asha_id KYCDocument.verified, Demo.o1);
               (Demo.kyc_for Demo.ravi_id KYCDocument.pending, Demo.o2);
               (Demo.kyc_for Demo.ravi_id KYCDocument.rejected, Demo.o1) ]
             (Some Demo.db)).
Proof.
  apply (kyc_one_record_per_student Demo.db). split.
  - repeat constructor. intros [].
  - intros s. change (coll Demo.db "kycdocument") with [Demo.asha_kyc].
    cbn [List.filter].
    destruct (f_eq "student_id" (VStr s) Demo.asha_kyc); cbn [length]; lia.
Defined.

Lemma create_student_trust_score_witness :
  exists d' stored,
    Main.create_student (Demo.new_student 99) Demo.o1 (Some Demo.db)
    = (Ok "65f1a2b3c4d5e6f708192e01", Some d')
    /\ coll d' "student" = [Demo.asha; Demo.ravi; stored]
    /\ doc_get stored "trust_score" = Some (VNum 0).
Proof.
  destruct (create_student_trust_score Demo.db (Demo.new_student 99) Demo.o1
              eq_refl eq_refl) as (d' & stored & E & C & _ & T & _).
  exists d', stored. auto.
Defined.

(** A proof for a student nobody registered, and one for an id that is
    no id: both are stored and answered with a null trust score. *)
Lemma submit_proof_never_raises_witness :
  (exists d', Main.submit_proof (Demo.proof_for "65f1a2b3c4d5e6f708192fff") Demo.o1
                (Some Demo.db)
              = (Ok ("65f1a2b3c4d5e6f708192e01", None), Some d'))
  /\ (exists d', Main.submit_proof (Demo.proof_for "nobody") Demo.o1 (Some Demo.db)
                 = (Ok ("65f1a2b3c4d5e6f708192e01", None), Some d')).
Proof.
  split.
  - destruct (submit_proof_never_raises Demo.db
                (Demo.proof_for "65f1a2b3c4d5e6f708192fff") Demo.o1 eq_refl)
      as (ts & d' & E & _ & T).
    vm_compute in T. destruct T as [-> _]. now exists d'.
  - destruct (submit_proof_never_raises Demo.db (Demo.proof_for "nobody") Demo.o1
                eq_refl) as (ts & d' & E & _ & T).
    vm_compute in T. destruct T as [-> _]. now exists d'.
Defined.

(** The ninth proof of a student with a pending KYC record: the answer
    carries the capped score. *)
Lemma submit_proof_known_student :
  fst (Main.submit_proof (Demo.proof_for Demo.asha_id) Demo.o1 (Some Demo.db))
  = Ok ("65f1a2b3c4d5e6f708192e01", Some 80).
Proof. vm_compute. reflexivity. Qed.

(** After the three submissions above the KYC collection holds two
    records: the first student's, now verified, and one for the second. *)
Lemma kyc_upsert_example :
  match Main.submit_kyc_all
          [ (Demo.kyc_for Demo.asha_id KYCDocument.verified, Demo.o1);
            (Demo.kyc_for Demo.ravi_id KYCDocument.pending, Demo.o2);
            (Demo.kyc_for Demo.ravi_id KYCDocument.rejected, Demo.o1) ]
          (Some Demo.db) with
  | Some d' =>
      map (fun k => (doc_id k, doc_get k "student_id", doc_get k "status"))
        (coll d' "kycdocument")
      = [ ("65f1a2b3c4d5e6f708192b01", Some (VStr Demo.asha_id), Some (VStr "verified"));
          ("65f1a2b3c4d5e6f708192e02", Some (VStr Demo.ravi_id), Some (VStr "rejected")) ]
  | None => False
  end.
Proof. vm_compute. reflexivity. Qed.

(** C8, as stated, fails twice. The query [a.c] is answered with the
    student named [abc], whose name and school do not contain [a.c];
    and with no filter a [limit] of 0 is answered with every student. *)
Lemma discover_students_counterexample :
  (Backend.discover_students Demo.no_engine (Some "a.c") 50 (Some Demo.db)
   = (Ok [Backend.with_str_id Demo.ravi], Some Demo.db)
   /\ Spec.field_contains_ci "full_name" "a.c" Demo.ravi = false
   /\ Spec.field_contains_ci "school_name" "a.c" Demo.ravi = false)
  /\ (exists out,
        Backend.discover_students Demo.no_engine None 0 (Some Demo.db)
        = (Ok out, Some Demo.db)
        /\ ~ (Z.of_nat (length out) <= 0)).
Proof.
  split; [repeat split; vm_compute; reflexivity |].
  eexists. split; [vm_compute; reflexivity |]. cbn. lia.
Qed.

(** The answer to [a.c] does not depend on what the engine does outside
    the modelled patterns. *)
Lemma discover_students_dot_any_engine engine :
  Backend.discover_students engine (Some "a.c") 50 (Some Demo.db)
  = (Ok [Backend.with_str_id Demo.ravi], Some Demo.db).
Proof. reflexivity. Qed.

Lemma discover_students_sound_witness :
  (exists out,
     Backend.discover_students Demo.no_engine None 1 (Some Demo.db)
     = (Ok out, Some Demo.db)
     /\ Z.of_nat (length out) <= 1)
  /\ (exists out,
        Backend.discover_students Demo.no_engine (Some "hill") 50 (Some Demo.db)
        = (Ok out, Some Demo.db)
        /\ forall x, In x out ->
             exists st, In st (coll Demo.db "student")
               /\ x = Backend.with_str_id st
               /\ (field_matches Demo.no_engine "full_name" "hill" st
                   \/ field_matches Demo.no_engine "school_name" "hill" st))
  /\ regex_search Demo.no_engine "hill" "i" "Hill View School"
     = Spec.contains_ci "hill" "Hill View School".
Proof.
  split; [| split].
  - apply (proj1 (discover_students_sound Demo.no_engine Demo.db None 1));
      [lia | reflexivity].
  - apply (proj1 (proj2 (proj2
             (discover_students_sound Demo.no_engine Demo.db (Some "hill") 50))));
      [reflexivity | discriminate].
  - apply (proj2 (proj2 (proj2
             (discover_students_sound Demo.no_engine Demo.db None 1))));
      reflexivity.
Defined.

(** The query [hill] finds the student of Hill View School and nobody
    else. *)
Lemma discover_students_hill :
  fst (Backend.discover_students Demo.no_engine (Some "hill") 50 (Some Demo.db))
  = Ok [Backend.with_str_id Demo.asha].
Proof. vm_compute. reflexivity. Qed.

(** *** The earlier variant, for the record *)

(** The placeholder score of [backend/main.py]: 40, plus 10 per proof
    and 30 per verified KYC record, capped at 100; no student is looked
    up. *)
Lemma backend_trust_Some (d : Database) student_id :
  Backend.trust student_id (Some d)
  = (Ok (student_id,
         Z.min 100
           (40 + Z.of_nat (length (Spec.proof_records d student_id)) * 10
            + Z.of_nat
                (length
                   (List.filter
                      (Backend.f_and (f_eq "student_id" (VStr student_id))
                         (f_eq "status" (VStr "verified")))
                      (coll d "kycdocument"))) * 30)),
     Some d).
Proof. reflexivity. Qed.

(** [submit_kyc] of [backend/main.py] appends a record each time. *)
Lemma backend_submit_kyc_appends (d : Database) doc o :
  fresh_in (new_id o) (coll d "kycdocument") = true ->
  exists d',
    snd (Backend.submit_kyc doc o (Some d)) = Some d'
    /\ length (coll d' "kycdocument") = S (length (coll d "kycdocument")).
Proof.
  intros F%fresh_in_spec. unfold Backend.submit_kyc, Backend.create_document.
  unfold bind. rewrite (insert_one_Some _ _ _ _ F). cbn [ret snd].
  eexists. split; [reflexivity |].
  rewrite coll_insert_eq, List.length_app. cbn. lia.
Qed.

(** ** Further properties of the handlers *)

(** *** Updates on a connected store *)

Lemma update_first_none p f c :
  List.find p c = None -> update_first p f c = c.
Proof.
  induction c as [|x c IH]; cbn; [reflexivity |].
  destruct (p x); [discriminate |]. intros H. now rewrite IH.
Qed.

Lemma update_one_Some name p upd (d : Database) :
  update_one name p upd (Some d) = (Ok tt, Some (updated d name p upd)).
Proof.
  unfold update_one, with_db, updated. now destruct (List.find p (coll d name)).
Qed.

Lemma coll_updated_eq (d : Database) name p upd :
  coll (updated d name p upd) name = update_first p (apply_set upd) (coll d name).
Proof.
  unfold updated. destruct (List.find p (coll d name)) eqn:F.
  - apply coll_insert_eq.
  - now rewrite update_first_none.
Qed.

Lemma coll_updated_ne (d : Database) name other p upd :
  name <> other -> coll (updated d name p upd) other = coll d other.
Proof.
  intros H. unfold updated. destruct (List.find p (coll d name)); [| reflexivity].
  now apply coll_insert_ne.
Qed.

Lemma find_update_first_self p f c :
  (forall x, p (f x) = p x) ->
  List.find p (update_first p f c) = option_map f (List.find p c).
Proof.
  intros Hp. induction c as [|x c IH]; cbn; [reflexivity |].
  destruct (p x) eqn:E; cbn.
  - now rewrite Hp, E.
  - now rewrite E.
Qed.

Lemma updated_idem (d : Database) name p upd :
  (forall x, p (apply_set upd x) = p x) ->
  updated (updated d name p upd) name p upd = updated d name p upd.
Proof.
  intros Hp. unfold updated at 1. rewrite coll_updated_eq.
  rewrite find_update_first_self by exact Hp.
  destruct (List.find p (coll d name)) eqn:F; cbn; [| reflexivity].
  rewrite update_first_idem; [| exact Hp | apply apply_set_idem].
  unfold updated. rewrite F. now rewrite insert_insert_eq.
Qed.

(** *** Errors and range of the trust score *)



Lemma score_of_unclamped kyc n :
  Main.score_of kyc (Z.of_nat n)
  = 10 + Spec.kyc_points (Spec.kyc_state_of kyc) + Z.min 30 (5 * Z.of_nat n).
Proof.
  rewrite score_of_spec. unfold Spec.trust_score, Spec.clamp, Spec.proof_points.
  destruct (Spec.kyc_state_of kyc); cbn [Spec.kyc_points]; lia.
Qed.

(** Every score [compute_trust_score] answers lies between 10 and 100,
    so the final clamp never changes anything; 100 is reached exactly
    by a verified KYC record with six or more proofs, and 10 exactly by
    no KYC record and no proof. *)
Theorem trust_score_floor_and_ceiling (d : Database) (student_id : string)
    (s : Z) (h' : handle) :
  Main.compute_trust_score student_id (Some d) = (Ok s, h') ->
  let kyc := Spec.kyc_state_of (head (Spec.kyc_records d student_id)) in
  let proofs := length (Spec.proof_records d student_id) in
  s = 10 + Spec.kyc_points kyc + Z.min 30 (5 * Z.of_nat proofs)
  /\ 10 <= s <= 100
  /\ (s = 100 <-> kyc = Spec.KycVerified /\ (6 <= proofs)%nat)
  /\ (s = 10 <-> kyc = Spec.NoKyc /\ proofs = 0%nat).
Proof.
  intros E kyc proofs.
  destruct (ObjectId_of_str student_id) as [sid|] eqn:Ei.
  2:{ rewrite compute_trust_score_invalid in E by exact Ei. discriminate. }
  rewrite (compute_trust_score_Some d _ sid Ei) in E.
  destruct (List.find (has_id sid) (coll d "student")); [| discriminate].
  injection E as <- _. rewrite score_of_unclamped.
  assert (List.find (f_eq "student_id" (VStr student_id)) (coll d "kycdocument")
          = head (Spec.kyc_records d student_id)) as ->.
  { unfold Spec.kyc_records.
    induction (coll d "kycdocument") as [|k c IH]; [reflexivity |].
    cbn. destruct (f_eq "student_id" (VStr student_id) k); [reflexivity | exact IH]. }
  fold kyc. fold proofs.
  destruct kyc; cbn [Spec.kyc_points];
    repeat split; try lia; try discriminate; try (intros [? ?]; lia);
    try (intros [? ?]; discriminate).
Qed.

(** *** Refreshing the stored score *)

Lemma has_id_apply_set o upd x : has_id o (apply_set upd x) = has_id o x.
Proof. reflexivity. Qed.

Lemma get_trust_Some (d : Database) student_id sid :
  ObjectId_of_str student_id = Some sid ->
  Main.get_trust student_id (Some d)
  = match fst (Main.compute_trust_score student_id (Some d)) with
    | Ok s =>
        (Ok s,
         Some (updated d "student" (has_id sid) {["trust_score" := Main.VScore s]}))
    | Raise e => (Raise e, Some d)
    end.
Proof.
  intros E. unfold Main.get_trust.
  destruct (Main.compute_trust_score student_id (Some d)) as [[s|e] h1] eqn:Ec;
    pose proof (compute_trust_score_handle _ _ _ _ Ec) as ->; cbn [fst].
  - rewrite (bind_Some _ _ _ _ _ Ec), (bind_Some _ _ _ _ _ (subscript_db_Some d)).
    unfold Main.oid. rewrite E. unfold bind at 1. cbn [ret].
    replace (f_eq "_id" (VOid sid)) with (has_id sid) by reflexivity.
    now rewrite (bind_Some _ _ _ _ _ (update_one_Some _ _ _ d)).
  - now rewrite (bind_Raise _ _ _ _ _ Ec).
Qed.

(** The score of a student is the same in two stores that agree on the
    KYC and proof collections and on whether the student is there. *)
Lemma compute_trust_score_same (d d' : Database) student_id sid :
  ObjectId_of_str student_id = Some sid ->
  coll d' "kycdocument" = coll d "kycdocument" ->
  coll d' "proofsubmission" = coll d "proofsubmission" ->
  (List.find (has_id sid) (coll d' "student") = None
   <-> List.find (has_id sid) (coll d "student") = None) ->
  fst (Main.compute_trust_score student_id (Some d'))
  = fst (Main.compute_trust_score student_id (Some d)).
Proof.
  intros E Hk Hp Hs. rewrite !(compute_trust_score_Some _ _ sid E).
  unfold Spec.proof_records. rewrite Hk, Hp.
  destruct (List.find (has_id sid) (coll d' "student")),
           (List.find (has_id sid) (coll d "student")); cbn; try reflexivity.
  - destruct Hs as [_ Hs]. now specialize (Hs eq_refl).
  - destruct Hs as [Hs _]. now specialize (Hs eq_refl).
Qed.

Lemma compute_trust_score_updated_student (d : Database) student_id sid upd :
  ObjectId_of_str student_id = Some sid ->
  fst (Main.compute_trust_score student_id
         (Some (updated d "student" (has_id sid) upd)))
  = fst (Main.compute_trust_score student_id (Some d)).
Proof.
  intros E. apply (compute_trust_score_same _ _ _ sid E).
  - now apply coll_updated_ne.
  - now apply coll_updated_ne.
  - rewrite coll_updated_eq, find_update_first_self by reflexivity.
    now destruct (List.find (has_id sid) (coll d "student")).
Qed.

Lemma compute_trust_score_fst (h : handle) student_id r :
  fst (Main.compute_trust_score student_id h) = r ->
  Main.compute_trust_score student_id h = (r, h).
Proof.
  destruct (Main.compute_trust_score student_id h) as [r' h'] eqn:E. cbn.
  intros ->. now rewrite (compute_trust_score_handle _ _ _ _ E).
Qed.

Lemma doc_get_apply_set_new k v x :
  k <> "_id" -> doc_get (apply_set {[k := v]} x) k = Some v.
Proof.
  intros H%String.eqb_neq. unfold doc_get, apply_set. rewrite H. cbn [doc_fields].
  apply lookup_union_Some_l, lookup_singleton_eq.
Qed.

(** [get_trust] for a student of the store answers the computed score
    and writes it onto that student's record, touching nothing else;
    asked again, it answers the same and changes nothing. *)
Theorem get_trust_persists (d : Database) (student_id : string) (sid : ObjectId)
    (e : document) :
  ObjectId_of_str student_id = Some sid ->
  List.find (has_id sid) (coll d "student") = Some e ->
  exists s d',
    Main.compute_trust_score student_id (Some d) = (Ok s, Some d)
    /\ Main.get_trust student_id (Some d) = (Ok s, Some d')
    /\ List.find (has_id sid) (coll d' "student")
       = Some (apply_set {["trust_score" := Main.VScore s]} e)
    /\ doc_get (apply_set {["trust_score" := Main.VScore s]} e) "trust_score"
       = Some (Main.VScore s)
    /\ map doc_id (coll d' "student") = map doc_id (coll d "student")
    /\ (forall name, name <> "student" -> coll d' name = coll d name)
    /\ Main.get_trust student_id (Some d') = (Ok s, Some d').
Proof.
  intros E F.
  pose proof (compute_trust_score_Some d _ sid E) as Ec. rewrite F in Ec.
  eexists _, (updated d "student" (has_id sid) _).
  split; [exact Ec |].
  split; [rewrite (get_trust_Some d _ sid E), Ec; reflexivity |].
  split; [rewrite coll_updated_eq, find_update_first_self, F by reflexivity;
          reflexivity |].
  split; [now apply doc_get_apply_set_new |].
  split; [rewrite coll_updated_eq; now apply map_doc_id_update_first |].
  split; [intros name Hn; apply coll_updated_ne; congruence |].
  rewrite (get_trust_Some _ _ sid E), compute_trust_score_updated_student, Ec by exact E.
  cbn [fst]. now rewrite updated_idem.
Qed.

(** The student is looked up by the parsed id, the KYC record and the
    proofs by the string as it was sent. A spelling of a student's id
    under which nothing is filed (its upper-case form, say) therefore
    scores 10, and [get_trust] stores that 10 on the student. *)
Theorem get_trust_by_spelling (d : Database) (spelling : string) (sid : ObjectId)
    (e : document) :
  ObjectId_of_str spelling = Some sid ->
  List.find (has_id sid) (coll d "student") = Some e ->
  Spec.kyc_records d spelling = [] ->
  Spec.proof_records d spelling = [] ->
  exists d',
    Main.get_trust spelling (Some d) = (Ok 10, Some d')
    /\ List.find (has_id sid) (coll d' "student")
       = Some (apply_set {["trust_score" := Main.VScore 10]} e).
Proof.
  intros E F Hk Hp.
  pose proof (compute_trust_score_Some d _ sid E) as Ec. rewrite F, Hp in Ec.
  assert (List.find (f_eq "student_id" (VStr spelling)) (coll d "kycdocument") = None)
    as Hnone.
  { destruct (List.find (f_eq "student_id" (VStr spelling)) (coll d "kycdocument"))
      as [k|] eqn:G; [| reflexivity].
    apply find_some in G. unfold Spec.kyc_records in Hk.
    assert (In k []) as []. rewrite <- Hk. now apply filter_In. }
  rewrite Hnone in Ec. change (Main.score_of None (Z.of_nat (length []))) with 10 in Ec.
  eexists. rewrite (get_trust_Some d _ sid E), Ec. cbn [fst].
  split; [reflexivity |].
  now rewrite coll_updated_eq, find_update_first_self, F by reflexivity.
Qed.

(** *** KYC submissions, to the end of the handler *)

Lemma submit_kyc_unfold (d : Database) payload o :
  kyc_step_ok (coll d "kycdocument") payload o = true ->
  Main.submit_kyc payload o (Some d)
  = kyc_rest payload (kyc_id_of (coll d "kycdocument") payload o)
      (Some (<["kycdocument" := kyc_after (coll d "kycdocument") payload o]> d)).
Proof.
  unfold kyc_step_ok, kyc_id_of, kyc_after, Main.submit_kyc.
  rewrite (bind_Some _ _ _ _ _ (find_one_Some _ _ d)).
  destruct (List.find _ (coll d "kycdocument")) as [e|] eqn:F.
  - intros _. destruct (find_some_has_id _ _ _ F) as [e0 G].
    unfold bind at 1. unfold bind at 1.
    replace (f_eq "_id" (VOid (doc_id e))) with (has_id (doc_id e)) by reflexivity.
    rewrite update_one_Some. unfold updated. rewrite G. reflexivity.
  - intros Hf%fresh_in_spec. rewrite Hf.
    unfold bind at 1. rewrite (create_document_Some _ _ _ _ Hf). reflexivity.
Qed.


Lemma kyc_rest_Some payload kyc_id (d : Database) sid :
  ObjectId_of_str (KYCDocument.student_id payload) = Some sid ->
  let d2 := updated d "student" (has_id sid)
              {["kyc_status" := VStr (KYCDocument.Status_str (KYCDocument.status payload))]} in
  kyc_rest payload kyc_id (Some d)
  = match fst (Main.compute_trust_score (KYCDocument.student_id payload) (Some d2)) with
    | Ok ts =>
        (Ok (kyc_id, ts),
         Some (updated d2 "student" (has_id sid) {["trust_score" := Main.VScore ts]}))
    | Raise e => (Raise e, Some d2)
    end.
Proof.
  intros E d2. unfold kyc_rest.
  rewrite (bind_Some _ _ _ _ _ (subscript_db_Some d)).
  unfold Main.oid. rewrite E. unfold bind at 1. cbn [ret].
  replace (f_eq "_id" (VOid sid)) with (has_id sid) by reflexivity.
  rewrite (bind_Some _ _ _ _ _ (update_one_Some _ _ _ d)). fold d2.
  destruct (Main.compute_trust_score _ (Some d2)) as [[ts|e] h1] eqn:Ec;
    pose proof (compute_trust_score_handle _ _ _ _ Ec) as ->; cbn [fst].
  - rewrite (bind_Some _ _ _ _ _ Ec), (bind_Some _ _ _ _ _ (subscript_db_Some d2)).
    unfold bind at 1. cbn [ret].
    now rewrite (bind_Some _ _ _ _ _ (update_one_Some _ _ _ d2)).
  - now rewrite (bind_Raise _ _ _ _ _ Ec).
Qed.

(** A KYC submission for a student of the store answers the score
    computed from the records as they are after the write, and leaves
    that student's record with the submitted status and that score: in
    the store it leaves, [compute_trust_score] agrees with the stored
    [trust_score]. *)
Theorem submit_kyc_refreshes_student (d : Database) (payload : KYCDocument.t)
    (o : oracle) (sid : ObjectId) (e : document) :
  kyc_step_ok (coll d "kycdocument") payload o = true ->
  ObjectId_of_str (KYCDocument.student_id payload) = Some sid ->
  List.find (has_id sid) (coll d "student") = Some e ->
  exists ts d' st,
    Main.submit_kyc payload o (Some d)
    = (Ok (kyc_id_of (coll d "kycdocument") payload o, ts), Some d')
    /\ coll d' "kycdocument" = kyc_after (coll d "kycdocument") payload o
    /\ coll d' "proofsubmission" = coll d "proofsubmission"
    /\ List.find (has_id sid) (coll d' "student") = Some st
    /\ doc_get st "kyc_status"
       = Some (VStr (KYCDocument.Status_str (KYCDocument.status payload)))
    /\ doc_get st "trust_score" = Some (Main.VScore ts)
    /\ Main.compute_trust_score (KYCDocument.student_id payload) (Some d')
       = (Ok ts, Some d').
Proof.
  intros Hok E F. rewrite (submit_kyc_unfold d payload o Hok).
  set (d1 := <["kycdocument" := kyc_after (coll d "kycdocument") payload o]> d).
  assert (F1 : List.find (has_id sid) (coll d1 "student") = Some e).
  { unfold d1. now rewrite coll_insert_ne by discriminate. }
  rewrite (kyc_rest_Some payload _ d1 sid E).
  set (st_upd := {["kyc_status" :=
                     VStr (KYCDocument.Status_str (KYCDocument.status payload))]}
                 : fields).
  set (d2 := updated d1 "student" (has_id sid) st_upd).
  assert (F2 : List.find (has_id sid) (coll d2 "student") = Some (apply_set st_upd e)).
  { unfold d2. now rewrite coll_updated_eq, find_update_first_self, F1 by reflexivity. }
  pose proof (compute_trust_score_Some d2 _ sid E) as Ec. rewrite F2 in Ec.
  rewrite Ec. cbn [fst].
  eexists _, _, _. split; [reflexivity |].
  split; [unfold d2, d1; rewrite !coll_updated_ne by discriminate;
          apply coll_insert_eq |].
  split; [unfold d2, d1; rewrite !coll_updated_ne by discriminate;
          now apply coll_insert_ne |].
  split; [rewrite coll_updated_eq, find_update_first_self, F2 by reflexivity;
          reflexivity |].
  split.
  { rewrite doc_get_apply_set_other by now apply lookup_singleton_ne.
    now apply doc_get_apply_set_new. }
  split; [now apply doc_get_apply_set_new |].
  apply compute_trust_score_fst.
  now rewrite compute_trust_score_updated_student, Ec.
Qed.


Lemma find_none_existsb (q : document -> bool) c :
  List.find q c = None -> existsb q c = false.
Proof.
  induction c as [|x c IH]; cbn; [reflexivity |].
  destruct (q x); [discriminate | exact IH].
Qed.

Lemma kyc_dump_over_stamped (payload : KYCDocument.t) o :
  KYCDocument.model_dump payload ∪ stamped (KYCDocument.model_dump payload) o
  = stamped (KYCDocument.model_dump payload) o.
Proof.
  apply map_eq. intros k. rewrite lookup_union.
  destruct (decide (k = "created_at")) as [-> | H1]; [reflexivity |].
  destruct (decide (k = "updated_at")) as [-> | H2]; [reflexivity |].
  rewrite stamped_lookup by assumption.
  now destruct (KYCDocument.model_dump payload !! k).
Qed.

Lemma kyc_after_idem c payload o o' :
  unique_ids c -> kyc_step_ok c payload o = true ->
  kyc_after (kyc_after c payload o) payload o' = kyc_after c payload o.
Proof.
  unfold unique_ids, kyc_step_ok. intros Hu Hok.
  unfold kyc_after at 2 3.
  destruct (List.find _ c) as [e|] eqn:F.
  - pose proof (find_some _ _ F) as [Hin Hq].
    destruct (update_first_unique (apply_set (KYCDocument.model_dump payload))
                c e Hu Hin) as (l1 & l2 & Ec & Eu).
    assert (F' : List.find (f_eq "student_id" (VStr (KYCDocument.student_id payload)))
                   (update_first (has_id (doc_id e))
                      (apply_set (KYCDocument.model_dump payload)) c)
                 = Some (apply_set (KYCDocument.model_dump payload) e)).
    { rewrite Eu. rewrite Ec in F, Hu. apply find_app_first.
      - exact (find_first_unique _ _ _ _ Hu F).
      - now rewrite kyc_overwrite_same_student. }
    unfold kyc_after. rewrite F'. cbn [apply_set doc_id].
    apply update_first_idem; [reflexivity | apply apply_set_idem].
  - apply fresh_in_spec in Hok. rewrite Hok.
    set (n := Doc (new_id o) (stamped (KYCDocument.model_dump payload) o)).
    assert (Hn : f_eq "student_id" (VStr (KYCDocument.student_id payload)) n = true).
    { apply f_eq_str_true.
      change (stamped (KYCDocument.model_dump payload) o !! "student_id"
              = Some (VStr (KYCDocument.student_id payload))).
      now rewrite stamped_lookup by discriminate. }
    unfold kyc_after.
    rewrite (find_app_fresh _ _ _ (find_none_existsb _ _ F)), Hn.
    subst n. cbn [doc_id].
    rewrite (update_first_app_fresh _ _ _ _ Hok), has_id_refl.
    unfold apply_set. cbn [doc_id doc_fields].
    now rewrite kyc_dump_over_stamped.
Qed.

(** Sending the same KYC submission again changes nothing in the KYC
    collection, whatever id the driver would have drawn for it. *)
Theorem submit_kyc_resubmission (d : Database) (payload : KYCDocument.t)
    (o o' : oracle) :
  unique_ids (coll d "kycdocument") ->
  kyc_step_ok (coll d "kycdocument") payload o = true ->
  exists d1 d2,
    snd (Main.submit_kyc payload o (Some d)) = Some d1
    /\ snd (Main.submit_kyc payload o' (Some d1)) = Some d2
    /\ coll d2 "kycdocument" = coll d1 "kycdocument"
    /\ coll d1 "kycdocument" = kyc_after (coll d "kycdocument") payload o.
Proof.
  intros Hu Hok.
  destruct (submit_kyc_kyc_coll d payload o) as (d1 & E1 & C1).
  destruct (submit_kyc_kyc_coll d1 payload o') as (d2 & E2 & C2).
  exists d1, d2. repeat split; auto.
  rewrite C2, C1. now apply kyc_after_idem.
Qed.

(** *** A proof for a student of the store *)

Lemma proof_dump_student_id (proof : ProofSubmission.t) :
  ProofSubmission.model_dump proof !! "student_id"
  = Some (VStr (ProofSubmission.student_id proof)).
Proof. reflexivity. Qed.

(** A proof submitted for a student of the store is answered with the
    score that counts the new proof, which is not below the score
    before, and that score is written onto the student's record. *)
Theorem submit_proof_refreshes_student (d : Database) (proof : ProofSubmission.t)
    (o : oracle) (sid : ObjectId) (e : document) :
  fresh_in (new_id o) (coll d "proofsubmission") = true ->
  ObjectId_of_str (ProofSubmission.student_id proof) = Some sid ->
  List.find (has_id sid) (coll d "student") = Some e ->
  let student_id := ProofSubmission.student_id proof in
  let kyc := List.find (f_eq "student_id" (VStr student_id)) (coll d "kycdocument") in
  let before := Main.score_of kyc (Z.of_nat (length (Spec.proof_records d student_id))) in
  let ts := Main.score_of kyc (Z.of_nat (S (length (Spec.proof_records d student_id)))) in
  exists d',
    Main.compute_trust_score student_id (Some d) = (Ok before, Some d)
    /\ Main.submit_proof proof o (Some d) = (Ok (new_id o, Some ts), Some d')
    /\ before <= ts
    /\ List.find (has_id sid) (coll d' "student")
       = Some (apply_set {["trust_score" := Main.VScore ts]} e)
    /\ Main.compute_trust_score student_id (Some d') = (Ok ts, Some d').
Proof.
  intros Hfresh%fresh_in_spec E F student_id kyc before ts.
  subst student_id.
  set (student_id := ProofSubmission.student_id proof) in *.
  set (record := Doc (new_id o) (stamped (ProofSubmission.model_dump proof) o)).
  set (d1 := <["proofsubmission" := coll d "proofsubmission" ++ [record]]> d).
  assert (Ec1 : Main.compute_trust_score student_id (Some d1) = (Ok ts, Some d1)).
  { rewrite (compute_trust_score_Some d1 _ sid E). unfold d1, Spec.proof_records.
    rewrite coll_insert_eq, !coll_insert_ne by discriminate. rewrite F.
    rewrite List.filter_app, List.length_app. cbn [List.filter].
    assert (f_eq "student_id" (VStr student_id) record = true) as ->.
    { apply f_eq_str_true.
      change (stamped (ProofSubmission.model_dump proof) o !! "student_id"
              = Some (VStr student_id)).
      now rewrite stamped_lookup by discriminate. }
    cbn [length]. unfold ts, kyc, Spec.proof_records. do 4 f_equal. lia. }
  exists (updated d1 "student" (has_id sid) {["trust_score" := Main.VScore ts]}).
  split; [rewrite (compute_trust_score_Some d _ sid E), F; reflexivity |].
  split.
  { unfold Main.submit_proof.
    rewrite (bind_Some _ _ _ _ _ (create_document_Some _ _ _ _ Hfresh)).
    fold record. fold d1. fold student_id.
    unfold bind at 1. unfold try_except.
    rewrite (bind_Some _ _ _ _ _ Ec1), (bind_Some _ _ _ _ _ (subscript_db_Some d1)).
    unfold Main.oid. rewrite E. unfold bind at 1. cbn [ret].
    replace (f_eq "_id" (VOid sid)) with (has_id sid) by reflexivity.
    now rewrite (bind_Some _ _ _ _ _ (update_one_Some _ _ _ d1)). }
  split; [apply score_of_mono; lia |].
  split.
  { rewrite coll_updated_eq, find_update_first_self by reflexivity.
    unfold d1. rewrite coll_insert_ne by discriminate. now rewrite F. }
  apply compute_trust_score_fst.
  now rewrite compute_trust_score_updated_student, Ec1.
Qed.

(** *** Anchoring a donation *)



(** *** What a webhook writes *)

Lemma webhook_dump_status (u : Main.WebhookUpdate.t) :
  Main.WebhookUpdate.model_dump_exclude_none u !! "status"
  = Some (VStr (Main.WebhookUpdate.status u)).
Proof.
  unfold Main.WebhookUpdate.model_dump_exclude_none.
  rewrite lookup_insert_ne by discriminate. apply lookup_insert_eq.
Qed.

Lemma webhook_dump_gateway_tx (u : Main.WebhookUpdate.t) :
  Main.WebhookUpdate.model_dump_exclude_none u !! "gateway_tx"
  = VStr <$> Main.WebhookUpdate.gateway_tx u.
Proof.
  unfold Main.WebhookUpdate.model_dump_exclude_none, Main.WebhookUpdate.opt_entry.
  rewrite !lookup_insert_ne by discriminate.
  destruct (Main.WebhookUpdate.gateway_tx u); cbn.
  - apply lookup_union_Some_l, lookup_singleton_eq.
  - rewrite lookup_union_r by apply lookup_empty.
    destruct (Main.WebhookUpdate.blockchain_tx u);
      [now apply lookup_singleton_ne | apply lookup_empty].
Qed.

Lemma webhook_dump_blockchain_tx (u : Main.WebhookUpdate.t) :
  Main.WebhookUpdate.model_dump_exclude_none u !! "blockchain_tx"
  = VStr <$> Main.WebhookUpdate.blockchain_tx u.
Proof.
  unfold Main.WebhookUpdate.model_dump_exclude_none, Main.WebhookUpdate.opt_entry.
  rewrite !lookup_insert_ne by discriminate.
  destruct (Main.WebhookUpdate.gateway_tx u); cbn.
  - rewrite lookup_union_r by now apply lookup_singleton_ne.
    destruct (Main.WebhookUpdate.blockchain_tx u);
      [apply lookup_singleton_eq | apply lookup_empty].
  - rewrite lookup_union_r by apply lookup_empty.
    destruct (Main.WebhookUpdate.blockchain_tx u);
      [apply lookup_singleton_eq | apply lookup_empty].
Qed.

Lemma doc_get_apply_set upd x k :
  k <> "_id" ->
  doc_get (apply_set upd x) k
  = match upd !! k with Some v => Some v | None => doc_get x k end.
Proof.
  intros H%String.eqb_neq. unfold doc_get, apply_set. rewrite H. cbn [doc_fields].
  rewrite lookup_union. now destruct (upd !! k), (doc_fields x !! k).
Qed.

Lemma find_has_id_unique c e :
  List.NoDup (map doc_id c) -> In e c -> List.find (has_id (doc_id e)) c = Some e.
Proof.
  induction c as [|x c IH]; cbn; [tauto |].
  intros [Hx Hnd]%List.NoDup_cons_iff [-> | Hin].
  - unfold has_id. now rewrite String.eqb_refl.
  - destruct (has_id (doc_id e) x) eqn:Hid; [| now apply IH].
    exfalso. apply Hx. apply String.eqb_eq in Hid. rewrite Hid. now apply in_map.
Qed.

(** A webhook for a stored donation is answered [ok] and merges its
    fields into the first donation carrying the reference: the status
    becomes the one sent, whatever it was before; [gateway_tx] and
    [blockchain_tx] are overwritten when sent and kept when not; the
    payment reference, the ids and every other donation stay as they
    were. *)
Theorem donation_webhook_merges (d : Database) (u : Main.WebhookUpdate.t)
    (e : document) :
  unique_ids (coll d "donation") ->
  List.find (f_eq "payment_reference" (VStr (Main.WebhookUpdate.reference u)))
    (coll d "donation") = Some e ->
  exists d' e',
    Main.donation_webhook u (Some d) = (Ok true, Some d')
    /\ List.find (has_id (doc_id e)) (coll d' "donation") = Some e'
    /\ doc_get e' "status" = Some (VStr (Main.WebhookUpdate.status u))
    /\ doc_get e' "payment_reference"
       = Some (VStr (Main.WebhookUpdate.reference u))
    /\ doc_get e' "gateway_tx"
       = match Main.WebhookUpdate.gateway_tx u with
         | Some v => Some (VStr v)
         | None => doc_get e "gateway_tx"
         end
    /\ doc_get e' "blockchain_tx"
       = match Main.WebhookUpdate.blockchain_tx u with
         | Some v => Some (VStr v)
         | None => doc_get e "blockchain_tx"
         end
    /\ map doc_id (coll d' "donation") = map doc_id (coll d "donation")
    /\ (forall x, In x (coll d "donation") -> x <> e -> In x (coll d' "donation"))
    /\ (forall name, name <> "donation" -> coll d' name = coll d name).
Proof.
  intros Hu F. rewrite donation_webhook_Some, F.
  pose proof (find_some _ _ F) as [Hin Hq]. apply f_eq_str_true in Hq.
  set (upd := Main.WebhookUpdate.model_dump_exclude_none u).
  destruct (update_first_unique (apply_set upd) _ e Hu Hin) as (l1 & l2 & Ec & Eu).
  exists (<["donation" := update_first (has_id (doc_id e)) (apply_set upd)
                            (coll d "donation")]> d), (apply_set upd e).
  split; [reflexivity |]. rewrite coll_insert_eq.
  split; [rewrite find_update_first_self by reflexivity;
          now rewrite (find_has_id_unique _ _ Hu Hin) |].
  split; [rewrite doc_get_apply_set by discriminate;
          unfold upd; now rewrite webhook_dump_status |].
  split; [rewrite doc_get_apply_set_other; [exact Hq |];
          apply webhook_dump_keeps; discriminate |].
  split; [rewrite doc_get_apply_set by discriminate;
          unfold upd; rewrite webhook_dump_gateway_tx;
          now destruct (Main.WebhookUpdate.gateway_tx u) |].
  split; [rewrite doc_get_apply_set by discriminate;
          unfold upd; rewrite webhook_dump_blockchain_tx;
          now destruct (Main.WebhookUpdate.blockchain_tx u) |].
  split; [now apply map_doc_id_update_first |].
  split.
  { intros x Hx Hne. rewrite Eu. rewrite Ec in Hx.
    apply in_or_app. apply in_app_or in Hx as [H1 | [H1 | H1]];
      [now left | congruence | right; now right]. }
  intros name Hn. apply coll_insert_ne. congruence.
Qed.

(** *** From initiation to the webhook *)

Lemma intent_update_reference don o :
  intent_update don o !! "payment_reference"
  = Some (VStr ("EDC-" +:+ Donation.Gateway_str (Donation.gateway don)
                  +:+ "-" +:+ new_id o)).
Proof. apply lookup_insert_eq. Qed.

Lemma intent_update_other don o k :
  k <> "payment_reference" -> k <> "status" -> intent_update don o !! k = None.
Proof.
  intros H1 H2. unfold intent_update.
  rewrite lookup_insert_ne by congruence. now apply lookup_singleton_ne.
Qed.

(** The reference [initiate_donation] answers is the key of the webhook:
    provided no older donation carries that reference, a webhook sent
    with it lands on the donation just created, sets its status and
    leaves its reference and its amount as they are. *)
Theorem webhook_after_initiate (d : Database) (don : Donation.t) (o : oracle)
    (u : Main.WebhookUpdate.t) :
  passes_range_tests don = true ->
  is_ObjectId (new_id o) = true ->
  fresh_in (new_id o) (coll d "donation") = true ->
  existsb (f_eq "payment_reference" (VStr (Main.WebhookUpdate.reference u)))
    (coll d "donation") = false ->
  Main.WebhookUpdate.reference u
  = "EDC-" +:+ Donation.Gateway_str (Donation.gateway don) +:+ "-" +:+ new_id o ->
  exists resp d1 d2 r,
    Main.initiate_donation don o (Some d) = (Ok resp, Some d1)
    /\ Main.reference resp = Main.WebhookUpdate.reference u
    /\ Main.donation_webhook u (Some d1) = (Ok true, Some d2)
    /\ coll d2 "donation" = coll d "donation" ++ [r]
    /\ doc_id r = new_id o
    /\ doc_get r "status" = Some (VStr (Main.WebhookUpdate.status u))
    /\ doc_get r "payment_reference" = Some (VStr (Main.WebhookUpdate.reference u))
    /\ doc_get r "amount" = Some (VNum (Donation.amount don)).
Proof.
  intros Hp Hid Hfresh Hold Href.
  pose proof (initiate_donation_accepted d don o Hp Hid Hfresh) as Ei.
  apply fresh_in_spec in Hfresh.
  set (n := Doc (new_id o)
              (intent_update don o ∪ stamped (Donation.model_dump don) o)) in *.
  set (upd := Main.WebhookUpdate.model_dump_exclude_none u).
  assert (Hn : f_eq "payment_reference" (VStr (Main.WebhookUpdate.reference u)) n
               = true).
  { apply f_eq_str_true. rewrite Href.
    change ((intent_update don o ∪ stamped (Donation.model_dump don) o)
              !! "payment_reference"
            = Some (VStr ("EDC-" +:+ Donation.Gateway_str (Donation.gateway don)
                            +:+ "-" +:+ new_id o))).
    apply lookup_union_Some_l, intent_update_reference. }
  eexists _, _, _, (apply_set upd n). split; [exact Ei |].
  split; [now rewrite Href |].
  rewrite donation_webhook_Some, !coll_insert_eq.
  rewrite (find_app_fresh _ _ _ Hold), Hn.
  change (doc_id n) with (new_id o).
  assert (Hnn : has_id (new_id o) n = true) by apply has_id_refl.
  rewrite (update_first_app_fresh _ _ _ _ Hfresh), Hnn.
  rewrite insert_insert_eq.
  split; [reflexivity |].
  split; [reflexivity |]. split; [reflexivity |].
  split; [rewrite doc_get_apply_set by discriminate;
          unfold upd; now rewrite webhook_dump_status |].
  split; [rewrite doc_get_apply_set_other;
          [now apply f_eq_str_true | apply webhook_dump_keeps; discriminate] |].
  rewrite doc_get_apply_set_other by (apply webhook_dump_keeps; discriminate).
  change ((intent_update don o ∪ stamped (Donation.model_dump don) o) !! "amount"
          = Some (VNum (Donation.amount don))).
  rewrite lookup_union_r by (apply intent_update_other; discriminate).
  now rewrite stamped_lookup by discriminate.
Qed.

(** *** Discovery by coordinates *)

(** With both coordinates given, [discover_students] of [main.py]
    answers only students of the store whose [location] is set, and the
    answer is the same wherever the point lies and whatever the radius:
    no distance is computed. *)
Theorem discover_students_located (d : Database) (lat lng radius_km : Q)
    (limit : Z) :
  exists out,
    Main.discover_students (Some lat) (Some lng) radius_km limit (Some d)
    = (Ok out, Some d)
    /\ (forall x, In x out ->
          exists st v,
            In st (coll d "student")
            /\ x = Main.with_str_id st
            /\ doc_get st "location" = Some v /\ v <> VNull)
    /\ (forall lat' lng' radius_km',
          Main.discover_students (Some lat') (Some lng') radius_km' limit (Some d)
          = (Ok out, Some d)).
Proof.
  eexists. split; [reflexivity |]. split; [| reflexivity].
  intros x (st & <- & Hst%limit_docs_incl)%in_map_iff.
  apply filter_In in Hst as [Hin Hf].
  unfold f_ne_null, f_eq in Hf. apply negb_true_iff in Hf.
  destruct (doc_get st "location") as [v|] eqn:G; [| discriminate].
  exists st, v. repeat split; auto. now intros ->.
Qed.

(** *** The earlier variant: store adapter and handlers *)

Lemma backend_create_document_Some name data o (d : Database) :
  existsb (has_id (new_id o)) (coll d name) = false ->
  Backend.create_document name data o (Some d)
  = (Ok (new_id o),
     Some (<[name := coll d name ++ [Doc (new_id o) (stamped data o)]]> d)).
Proof.
  intros H. unfold Backend.create_document.
  erewrite bind_Some; [| apply insert_one_Some, H]. reflexivity.
Qed.

(** What [create_document] stores, [get_documents] gives back: after a
    successful create, reading the whole collection answers the earlier
    documents followed by the new one, which carries the answered id
    under [id], the two time stamps, and every other field as given.
    An id the collection already holds is refused and nothing is
    written. *)
Theorem backend_create_then_get (d : Database) (name : string) (data : fields)
    (o : oracle) :
  (fresh_in (new_id o) (coll d name) = true ->
     exists d' x,
       Backend.create_document name data o (Some d) = (Ok (new_id o), Some d')
       /\ Backend.get_documents name f_all 0 (Some d')
          = (Ok (map Backend.with_str_id (coll d name) ++ [x]), Some d')
       /\ x !! "id" = Some (VStr (new_id o))
       /\ x !! "created_at" = Some (VDate (now_created o))
       /\ x !! "updated_at" = Some (VDate (now_updated o))
       /\ (forall k, k <> "id" -> k <> "created_at" -> k <> "updated_at" ->
             x !! k = data !! k)
       /\ (forall other, other <> name -> coll d' other = coll d other))
  /\ (fresh_in (new_id o) (coll d name) = false ->
      Backend.create_document name data o (Some d)
      = (Raise DuplicateKeyError, Some d)).
Proof.
  split.
  - intros Hf%fresh_in_spec.
    eexists _, (Backend.with_str_id (Doc (new_id o) (stamped data o))).
    split; [now apply backend_create_document_Some |].
    rewrite get_documents_Some, coll_insert_eq.
    split.
    { unfold limit_docs. cbn [Z.eqb].
      assert (forall c : list document, List.filter f_all c = c) as ->.
      { induction c as [|y c IH]; cbn; [reflexivity | now rewrite IH]. }
      now rewrite map_app. }
    unfold Backend.with_str_id. cbn [doc_id doc_fields].
    split; [apply lookup_insert_eq |].
    split; [rewrite lookup_insert_ne by discriminate; unfold stamped;
            rewrite lookup_insert_ne by discriminate; apply lookup_insert_eq |].
    split; [rewrite lookup_insert_ne by discriminate; apply lookup_insert_eq |].
    split.
    + intros k H1 H2 H3. rewrite lookup_insert_ne by congruence.
      now apply stamped_lookup.
    + intros other Hn. apply coll_insert_ne. congruence.
  - intros Hf. unfold fresh_in in Hf. apply negb_false_iff in Hf.
    unfold Backend.create_document.
    erewrite bind_Raise; [reflexivity | now apply insert_one_duplicate].
Qed.

(** Without a database both adapter functions raise
    [RuntimeError("Database not initialized")], while [trust] answers
    the score 0; none of them changes the handle. *)
Lemma backend_without_database (name : string) (data : fields) (o : oracle)
    (flt : document -> bool) (limit : Z) (student_id : string) :
  Backend.create_document name data o None
  = (Raise (RuntimeError "Database not initialized"), None)
  /\ Backend.get_documents name flt limit None
     = (Raise (RuntimeError "Database not initialized"), None)
  /\ (forall engine q,
        Backend.discover_students engine q limit None
        = (Raise (RuntimeError "Database not initialized"), None))
  /\ Backend.list_students None
     = (Raise (RuntimeError "Database not initialized"), None)
  /\ Backend.trust student_id None = (Ok (student_id, 0), None).
Proof. repeat split. Qed.

(** [create_student] of the earlier variant stores the [trust_score] the
    request carries, and answers it back with the new id. *)
Theorem backend_create_student_keeps_trust_score (d : Database)
    (student : Backend.Student.t) (o : oracle) :
  fresh_in (new_id o) (coll d "student") = true ->
  exists d' out stored,
    Backend.create_student student o (Some d) = (Ok out, Some d')
    /\ coll d' "student" = coll d "student" ++ [stored]
    /\ doc_id stored = new_id o
    /\ doc_get stored "trust_score"
       = Some (opt_value VNum (Backend.Student.trust_score student))
    /\ out !! "id" = Some (VStr (new_id o))
    /\ out !! "trust_score"
       = Some (opt_value VNum (Backend.Student.trust_score student)).
Proof.
  intros Hf%fresh_in_spec. unfold Backend.create_student.
  rewrite (bind_Some _ _ _ _ _ (backend_create_document_Some _ _ _ _ Hf)).
  eexists _, _, _. split; [reflexivity |]. rewrite coll_insert_eq.
  split; [reflexivity |]. split; [reflexivity |].
  split.
  { change (stamped (Backend.Student.model_dump student) o !! "trust_score"
            = Some (opt_value VNum (Backend.Student.trust_score student))).
    now rewrite stamped_lookup by discriminate. }
  split.
  - rewrite lookup_union_r by reflexivity. apply lookup_singleton_eq.
  - now apply lookup_union_Some_l.
Qed.

(** The placeholder [trust] never raises and never writes. On a
    connected store it answers at least 40 and at most 100, for any
    string at all: no student is looked up and no id is parsed. *)
Theorem backend_trust_bounds (h : handle) (student_id : string) :
  exists s,
    Backend.trust student_id h = (Ok (student_id, s), h)
    /\ match h with
       | None => s = 0
       | Some d =>
           40 <= s <= 100
           /\ (Spec.proof_records d student_id = [] ->
               Spec.kyc_records d student_id = [] -> s = 40)
       end.
Proof.
  destruct h as [d|]; [| now exists 0].
  eexists. split; [apply backend_trust_Some |].
  split; [lia |].
  intros Hp Hk. rewrite Hp.
  assert (List.filter
            (Backend.f_and (f_eq "student_id" (VStr student_id))
               (f_eq "status" (VStr "verified")))
            (coll d "kycdocument") = []) as ->; [| reflexivity].
  unfold Spec.kyc_records in Hk.
  induction (coll d "kycdocument") as [|k c IH]; [reflexivity |].
  cbn in *. unfold Backend.f_and at 1.
  destruct (f_eq "student_id" (VStr student_id) k); [discriminate |].
  cbn. now apply IH.
Qed.

Lemma backend_initiate_donation_Some upper (d : Database) don o :
  fresh_in (new_id o) (coll d "donation") = true ->
  Backend.initiate_donation upper don o (Some d)
  = match backend_range_error upper don with
    | Some detail => (Raise (HTTPException 400 detail), Some d)
    | None =>
        (Ok ("created", new_id o),
         Some (<["donation" :=
                  coll d "donation"
                    ++ [Doc (new_id o) (stamped (Backend.Donation.model_dump don) o)]]> d))
    end.
Proof.
  intros Hf%fresh_in_spec.
  unfold Backend.initiate_donation, backend_range_error.
  destruct (String.eqb (upper _) "INR").
  - destruct (String.eqb _ "micro" && _)%bool; [reflexivity |].
    destruct (String.eqb _ "big" && _)%bool; [reflexivity |].
    unfold bind at 1. cbn [ret].
    now rewrite (bind_Some _ _ _ _ _ (backend_create_document_Some _ _ _ _ Hf)).
  - unfold bind at 1. cbn [ret].
    now rewrite (bind_Some _ _ _ _ _ (backend_create_document_Some _ _ _ _ Hf)).
Qed.

Lemma backend_between_iff lo amt hi :
  Backend.between lo amt hi = true <-> (lo <= amt /\ amt <= hi)%Q.
Proof.
  unfold Backend.between. rewrite andb_true_iff, !Qle_bool_iff. tauto.
Qed.

(** [initiate_donation] of the earlier variant checks the amount when
    the upper-cased currency is INR and the tier is spelled [micro] or
    [big]: then it succeeds exactly within the tier's bounds, and
    refuses with a 400 before anything is written. A currency that does
    not upper-case to INR, or any other tier name, is never checked.
    On success the answer is [created] with the bare record id as the
    reference, and the record is stored as it was dumped. *)
Theorem backend_initiate_donation_cases (upper : string -> string) (d : Database)
    (don : Backend.Donation.t) (o : oracle) :
  fresh_in (new_id o) (coll d "donation") = true ->
  let run := Backend.initiate_donation upper don o (Some d) in
  let amt := Backend.Donation.amount don in
  (upper (Backend.Donation.currency don) = "INR" ->
     (Backend.Donation.scholarship don = "micro" ->
        ((10 <= amt /\ amt <= 5000)%Q <-> succeeds run))
     /\ (Backend.Donation.scholarship don = "big" ->
         ((10000 <= amt /\ amt <= 1000000)%Q <-> succeeds run)))
  /\ (upper (Backend.Donation.currency don) <> "INR"
      \/ (Backend.Donation.scholarship don <> "micro"
          /\ Backend.Donation.scholarship don <> "big") ->
      succeeds run)
  /\ (succeeds run ->
      run = (Ok ("created", new_id o),
             Some (<["donation" :=
                      coll d "donation"
                        ++ [Doc (new_id o)
                              (stamped (Backend.Donation.model_dump don) o)]]> d)))
  /\ (~ succeeds run ->
      exists detail, run = (Raise (HTTPException 400 detail), Some d)).
Proof.
  intros Hf run amt. unfold run.
  rewrite (backend_initiate_donation_Some upper d don o Hf).
  unfold backend_range_error, succeeds. fold amt.
  split; [| split; [| split]].
  - intros ->. cbn [String.eqb Ascii.eqb Bool.eqb]. split; intros ->.
    + cbn -[Backend.between].
      rewrite <- (backend_between_iff 10 amt 5000).
      change Backend.MICRO_MIN_INR with 10%Q. change Backend.MICRO_MAX_INR with 5000%Q.
      destruct (Backend.between 10 amt 5000); cbn [negb]; split;
        try discriminate; eauto.
      intros (a & h' & [=]).
    + cbn -[Backend.between].
      rewrite <- (backend_between_iff 10000 amt 1000000).
      change Backend.BIG_MIN_INR with 10000%Q.
      change Backend.BIG_MAX_INR with 1000000%Q.
      destruct (Backend.between 10000 amt 1000000); cbn [negb]; split;
        try discriminate; eauto.
      intros (a & h' & [=]).
  - intros [Hc%String.eqb_neq | [Hm%String.eqb_neq Hb%String.eqb_neq]].
    + rewrite Hc. eauto.
    + rewrite Hm, Hb. cbn [andb]. destruct (String.eqb _ "INR"); eauto.
  - intros (a & h' & E).
    destruct (String.eqb _ "INR"); [| reflexivity].
    destruct (String.eqb _ "micro" && _)%bool; [discriminate |].
    destruct (String.eqb _ "big" && _)%bool; [discriminate | reflexivity].
  - intros Hn.
    destruct (String.eqb _ "INR"); [| exfalso; apply Hn; eauto].
    destruct (String.eqb _ "micro" && _)%bool; [eauto |].
    destruct (String.eqb _ "big" && _)%bool; [eauto |].
    exfalso. apply Hn. eauto.
Qed.

(** *** What every reachable store satisfies *)

Lemma keeps_ids_ret {A} (a : A) : keeps_ids (ret a).
Proof. intros d. now eexists _, _. Qed.

Lemma keeps_ids_raise {A} e : keeps_ids (@raise A e).
Proof. intros d. now eexists _, _. Qed.

Lemma keeps_ids_bind {A B} (m : M A) (k : A -> M B) :
  keeps_ids m -> (forall a, keeps_ids (k a)) -> keeps_ids (bind m k).
Proof.
  intros Hm Hk d. destruct (Hm d) as ([a|e] & d1 & E & C).
  - destruct (Hk a d1) as (r & d2 & E2 & C2).
    exists r, d2. rewrite (bind_Some _ _ _ _ _ E). split; auto.
  - exists (Raise e), d1. now rewrite (bind_Raise _ _ _ _ _ E).
Qed.

Lemma keeps_ids_try_except {A} (body : M A) handler :
  keeps_ids body -> (forall e, keeps_ids (handler e)) ->
  keeps_ids (try_except body handler).
Proof.
  intros Hm Hk d. unfold try_except. destruct (Hm d) as ([a|e] & d1 & -> & C).
  - now exists (Ok a), d1.
  - destruct (Hk e d1) as (r & d2 & E2 & C2). exists r, d2. split; auto.
Qed.

Lemma keeps_ids_read {A} (m : M A) :
  (forall d : Database, exists r, m (Some d) = (r, Some d)) -> keeps_ids m.
Proof. intros H d. destruct (H d) as [r E]. now exists r, d. Qed.

Lemma keeps_ids_update_one name p upd : keeps_ids (update_one name p upd).
Proof.
  intros d. rewrite update_one_Some. eexists _, _. split; [reflexivity |].
  intros other. destruct (String.eqb_spec name other) as [<- | Hn].
  - rewrite coll_updated_eq. unfold unique_ids.
    now rewrite map_doc_id_update_first.
  - now rewrite coll_updated_ne.
Qed.

Lemma keeps_ids_create_document name data o :
  keeps_ids (Main.create_document name data o).
Proof.
  intros d. destruct (existsb (has_id (new_id o)) (coll d name)) eqn:F.
  - exists (Raise DuplicateKeyError), d. split; [| auto].
    unfold Main.create_document.
    erewrite bind_Raise; [reflexivity | now apply insert_one_duplicate].
  - rewrite (create_document_Some _ _ _ _ F). eexists _, _. split; [reflexivity |].
    intros other. destruct (String.eqb_spec name other) as [<- | Hn].
    + rewrite coll_insert_eq. unfold unique_ids. intros H.
      rewrite map_app. apply List.NoDup_app; auto.
      * apply List.NoDup_cons; [tauto | apply List.NoDup_nil].
      * intros x Hx [<- | []]. now apply (has_id_In _ _ F).
    + now rewrite coll_insert_ne.
Qed.

Lemma keeps_ids_compute_trust_score s : keeps_ids (Main.compute_trust_score s).
Proof.
  apply keeps_ids_read. intros d.
  destruct (Main.compute_trust_score s (Some d)) as [r h'] eqn:E.
  rewrite (compute_trust_score_handle _ _ _ _ E). eauto.
Qed.

Lemma keeps_ids_oid s : keeps_ids (Main.oid s).
Proof.
  apply keeps_ids_read. intros d. unfold Main.oid.
  destruct (ObjectId_of_str s); eauto.
Qed.

Lemma keeps_ids_ObjectId_new s : keeps_ids (Main.ObjectId_new s).
Proof.
  apply keeps_ids_read. intros d. unfold Main.ObjectId_new.
  destruct (ObjectId_of_str s); eauto.
Qed.

Lemma keeps_ids_subscript_db : keeps_ids subscript_db.
Proof. apply keeps_ids_read. intros d. now eexists. Qed.

Lemma keeps_ids_find_one name p : keeps_ids (find_one name p).
Proof. apply keeps_ids_read. intros d. now eexists. Qed.

Lemma keeps_ids_find_limit name p n : keeps_ids (find_limit name p n).
Proof. apply keeps_ids_read. intros d. now eexists. Qed.

Ltac keeps_ids_step :=
  first
    [ apply keeps_ids_ret | apply keeps_ids_raise | apply keeps_ids_subscript_db
    | apply keeps_ids_find_one | apply keeps_ids_find_limit | apply keeps_ids_oid
    | apply keeps_ids_ObjectId_new | apply keeps_ids_compute_trust_score
    | apply keeps_ids_update_one | apply keeps_ids_create_document
    | apply keeps_ids_try_except; [| intros ?]
    | match goal with
      | |- keeps_ids (match ?x with _ => _ end) => destruct x
      | |- keeps_ids (if ?b then _ else _) => destruct b
      end
    | apply keeps_ids_bind; [| intros ?] ].

Ltac preserves_more :=
  first
    [ preserves_step
    | match goal with
      | |- preserves _ (match ?x with _ => _ end) => destruct x
      | |- preserves _ (if ?b then _ else _) => destruct b
      end ].

Lemma serve_keeps_ids (r : request) (d : Database) :
  exists d',
    serve r (Some d) = Some d'
    /\ forall name, unique_ids (coll d name) -> unique_ids (coll d' name).
Proof.
  assert (H : forall A (m : M A), keeps_ids m ->
            exists d', snd (m (Some d)) = Some d'
              /\ forall name, unique_ids (coll d name) -> unique_ids (coll d' name)).
  { intros A m Hm. destruct (Hm d) as (x & d' & -> & C). now exists d'. }
  destruct r; cbn [serve]; apply H.
  - unfold Main.create_student. repeat keeps_ids_step.
  - unfold Main.submit_kyc. repeat keeps_ids_step.
  - unfold Main.submit_proof. repeat keeps_ids_step.
  - unfold Main.initiate_donation. repeat keeps_ids_step.
  - unfold Main.donation_webhook. repeat keeps_ids_step.
  - unfold Main.record_blockchain_tx. repeat keeps_ids_step.
  - unfold Main.discover_students. repeat keeps_ids_step.
  - unfold Main.get_trust. repeat keeps_ids_step.
Qed.

Lemma serve_other_keeps_kyc (r : request) (d : Database) :
  (forall payload o, r <> SubmitKyc payload o) ->
  exists d', serve r (Some d) = Some d'
             /\ coll d' "kycdocument" = coll d "kycdocument".
Proof.
  intros Hr.
  assert (H : forall A (m : M A), preserves "kycdocument" m ->
            exists d', snd (m (Some d)) = Some d'
              /\ coll d' "kycdocument" = coll d "kycdocument").
  { intros A m Hm. destruct (Hm d) as (x & d' & -> & C). now exists d'. }
  destruct r; cbn [serve]; try (now destruct (Hr payload o)); apply H.
  - unfold Main.create_student. repeat preserves_more.
  - unfold Main.submit_proof. repeat preserves_more.
  - unfold Main.initiate_donation. repeat preserves_more.
  - unfold Main.donation_webhook. repeat preserves_more.
  - unfold Main.record_blockchain_tx. repeat preserves_more.
  - unfold Main.discover_students. repeat preserves_more.
  - unfold Main.get_trust. repeat preserves_more.
Qed.

Lemma serve_None r : serve r None = None.
Proof.
  destruct r; cbn [serve]; try reflexivity.
  - unfold Main.initiate_donation.
    destruct (_ && _ && _)%bool; [reflexivity |].
    destruct (_ && _ && _)%bool; reflexivity.
  - unfold Main.get_trust, Main.compute_trust_score, Main.oid.
    destruct (ObjectId_of_str student_id); reflexivity.
Qed.

Lemma serve_inv r h : store_inv h -> store_inv (serve r h).
Proof.
  destruct h as [d|].
  2:{ intros _. now rewrite serve_None. }
  intros [Hu Ho]. destruct (serve_keeps_ids r d) as (d' & E & C).
  rewrite E. split; [intros name; apply C, Hu |].
  destruct r;
    try (match type of E with
         | serve ?r _ = _ =>
             destruct (serve_other_keeps_kyc r d ltac:(intros ? ?; discriminate))
               as (d2 & E2 & C2)
         end;
         rewrite E in E2; injection E2 as <-; now rewrite C2).
  cbn [serve] in E. destruct (submit_kyc_kyc_coll d payload o) as (d2 & E2 & C2).
  rewrite E in E2. injection E2 as <-. rewrite C2.
  now apply kyc_after_one_per_student.
Qed.

(** Whatever requests are served, in whatever order, starting from a
    store in which ids are unique within each collection and no student
    has two KYC records (an empty store, for one), the store stays so:
    no handler duplicates an id, and only the KYC upsert writes KYC
    records. *)
Theorem store_inv_preserved (rs : list request) (h : handle) :
  store_inv h -> store_inv (serve_all rs h).
Proof.
  revert h. induction rs as [|r rs IH]; cbn; [auto |].
  intros h H. now apply IH, serve_inv.
Qed.

Lemma store_inv_empty : store_inv (Some ∅).
Proof.
  split.
  - intros name. unfold unique_ids, coll. rewrite lookup_empty. apply List.NoDup_nil.
  - intros s. unfold coll. rewrite lookup_empty. cbn. lia.
Qed.

(** *** Worked instances of the further properties *)


Lemma trust_score_floor_and_ceiling_witness :
  80 = 10 + Spec.kyc_points Spec.KycPending + Z.min 30 (5 * Z.of_nat 8)
  /\ 10 <= 80 <= 100.
Proof.
  destruct (trust_score_floor_and_ceiling Demo.db Demo.asha_id 80 (Some Demo.db)
              eq_refl) as (H1 & H2 & _).
  split; [exact H1 | exact H2].
Defined.

Lemma get_trust_persists_witness :
  exists s d',
    Main.get_trust Demo.asha_id (Some Demo.db) = (Ok s, Some d')
    /\ Main.get_trust Demo.asha_id (Some d') = (Ok s, Some d').
Proof.
  destruct (get_trust_persists Demo.db Demo.asha_id Demo.asha_id Demo.asha
              eq_refl eq_refl) as (s & d' & _ & E1 & _ & _ & _ & _ & E2).
  now exists s, d'.
Defined.

(** The first student's id in upper case: her KYC record and her eight
    proofs are filed under the lower-case spelling. *)
Lemma get_trust_by_spelling_witness :
  exists d',
    Main.get_trust "65F1A2B3C4D5E6F708192A01" (Some Demo.db) = (Ok 10, Some d')
    /\ List.find (has_id Demo.asha_id) (coll d' "student")
       = Some (apply_set {["trust_score" := Main.VScore 10]} Demo.asha).
Proof.
  exact (get_trust_by_spelling Demo.db "65F1A2B3C4D5E6F708192A01" Demo.asha_id
           Demo.asha eq_refl eq_refl eq_refl eq_refl).
Defined.

Lemma submit_kyc_refreshes_student_witness :
  exists ts d',
    Main.submit_kyc (Demo.kyc_for Demo.asha_id KYCDocument.verified) Demo.o1
      (Some Demo.db)
    = (Ok ("65f1a2b3c4d5e6f708192b01", ts), Some d')
    /\ Main.compute_trust_score Demo.asha_id (Some d') = (Ok ts, Some d').
Proof.
  destruct (submit_kyc_refreshes_student Demo.db
              (Demo.kyc_for Demo.asha_id KYCDocument.verified) Demo.o1
              Demo.asha_id Demo.asha eq_refl eq_refl eq_refl)
    as (ts & d' & st & E & _ & _ & _ & _ & _ & Ec).
  now exists ts, d'.
Defined.

(** The verified record and the eight proofs make 100. *)
Lemma submit_kyc_verified_example :
  fst (Main.submit_kyc (Demo.kyc_for Demo.asha_id KYCDocument.verified) Demo.o1
         (Some Demo.db))
  = Ok ("65f1a2b3c4d5e6f708192b01", 100).
Proof. vm_compute. reflexivity. Qed.


Lemma submit_kyc_resubmission_witness :
  exists d1 d2,
    snd (Main.submit_kyc (Demo.kyc_for Demo.ravi_id KYCDocument.pending) Demo.o1
           (Some Demo.db)) = Some d1
    /\ snd (Main.submit_kyc (Demo.kyc_for Demo.ravi_id KYCDocument.pending) Demo.o2
              (Some d1)) = Some d2
    /\ coll d2 "kycdocument" = coll d1 "kycdocument".
Proof.
  destruct (submit_kyc_resubmission Demo.db
              (Demo.kyc_for Demo.ravi_id KYCDocument.pending) Demo.o1 Demo.o2)
    as (d1 & d2 & E1 & E2 & C & _).
  - repeat constructor. intros [].
  - reflexivity.
  - now exists d1, d2.
Defined.

Lemma submit_proof_refreshes_student_witness :
  exists d',
    Main.submit_proof (Demo.proof_for Demo.asha_id) Demo.o1 (Some Demo.db)
    = (Ok ("65f1a2b3c4d5e6f708192e01", Some 80), Some d')
    /\ Main.compute_trust_score Demo.asha_id (Some d') = (Ok 80, Some d').
Proof.
  destruct (submit_proof_refreshes_student Demo.db (Demo.proof_for Demo.asha_id)
              Demo.o1 Demo.asha_id Demo.asha eq_refl eq_refl eq_refl)
    as (d' & _ & E & _ & _ & Ec).
  exists d'. split; [exact E | exact Ec].
Defined.


Lemma donation_webhook_merges_witness :
  exists d' e',
    Main.donation_webhook (Demo.paid "EDC-upi-65f1a2b3c4d5e6f708192d01")
      (Some Demo.db) = (Ok true, Some d')
    /\ List.find (has_id "65f1a2b3c4d5e6f708192d01") (coll d' "donation") = Some e'
    /\ doc_get e' "status" = Some (VStr "succeeded")
    /\ doc_get e' "gateway_tx" = Some (VStr "gw-77")
    /\ doc_get e' "blockchain_tx" = None.
Proof.
  destruct (donation_webhook_merges Demo.db
              (Demo.paid "EDC-upi-65f1a2b3c4d5e6f708192d01") Demo.upi_donation)
    as (d' & e' & E & F & S & _ & G & B & _).
  - repeat constructor. intros [].
  - reflexivity.
  - now exists d', e'.
Defined.

Lemma webhook_after_initiate_witness :
  exists resp d1 d2 r,
    Main.initiate_donation (Demo.donation Donation.micro 250 "INR") Demo.o1
      (Some Demo.db) = (Ok resp, Some d1)
    /\ Main.donation_webhook (Demo.paid (Main.reference resp)) (Some d1)
       = (Ok true, Some d2)
    /\ coll d2 "donation" = [Demo.upi_donation; r]
    /\ doc_get r "status" = Some (VStr "succeeded").
Proof.
  destruct (webhook_after_initiate Demo.db (Demo.donation Donation.micro 250 "INR")
              Demo.o1 (Demo.paid "EDC-upi-65f1a2b3c4d5e6f708192e01")
              eq_refl eq_refl eq_refl eq_refl eq_refl)
    as (resp & d1 & d2 & r & Ei & Er & Ew & C & _ & S & _).
  exists resp, d1, d2, r. rewrite Er. auto.
Defined.

Lemma backend_create_then_get_witness :
  exists d' x,
    Backend.create_document "student" {["full_name" := VStr "Meera Nair"]} Demo.o1
      (Some Demo.db) = (Ok "65f1a2b3c4d5e6f708192e01", Some d')
    /\ Backend.get_documents "student" f_all 0 (Some d')
       = (Ok [Backend.with_str_id Demo.asha; Backend.with_str_id Demo.ravi; x],
          Some d')
    /\ x !! "id" = Some (VStr "65f1a2b3c4d5e6f708192e01")
    /\ x !! "full_name" = Some (VStr "Meera Nair").
Proof.
  destruct (proj1 (backend_create_then_get Demo.db "student"
                     {["full_name" := VStr "Meera Nair"]} Demo.o1) eq_refl)
    as (d' & x & E & G & I & _ & _ & K & _).
  exists d', x. split; [exact E |]. split; [exact G |]. split; [exact I |].
  rewrite K by discriminate. reflexivity.
Defined.

Lemma backend_create_student_keeps_trust_score_witness :
  exists d' out stored,
    Backend.create_student
      (Backend.Student.Build "Meera Nair" None None None None None None None
         (Some 99%Q))
      Demo.o1 (Some Demo.db) = (Ok out, Some d')
    /\ coll d' "student" = [Demo.asha; Demo.ravi; stored]
    /\ doc_get stored "trust_score" = Some (VNum 99).
Proof.
  destruct (backend_create_student_keeps_trust_score Demo.db
              (Backend.Student.Build "Meera Nair" None None None None None None None
                 (Some 99%Q)) Demo.o1 eq_refl)
    as (d' & out & stored & E & C & _ & T & _).
  now exists d', out, stored.
Defined.

Lemma backend_trust_bounds_witness :
  Backend.trust "nobody" (Some Demo.db) = (Ok ("nobody", 40), Some Demo.db)
  /\ exists s, Backend.trust Demo.asha_id (Some Demo.db)
               = (Ok (Demo.asha_id, s), Some Demo.db) /\ 40 <= s <= 100.
Proof.
  split.
  - destruct (backend_trust_bounds (Some Demo.db) "nobody") as (s & E & _ & H).
    rewrite E. now rewrite (H eq_refl eq_refl).
  - destruct (backend_trust_bounds (Some Demo.db) Demo.asha_id) as (s & E & H & _).
    now exists s.
Defined.

(** In the earlier variant a currency written [inr] is checked, and a
    tier written [weekly] is not. *)
Lemma backend_initiate_donation_cases_witness :
  ~ succeeds (Backend.initiate_donation ascii_upper
                (Backend.Donation.Build None "micro" 5001 "inr" "upi") Demo.o1
                (Some Demo.db))
  /\ succeeds (Backend.initiate_donation ascii_upper
                 (Backend.Donation.Build None "micro" 5000 "inr" "upi") Demo.o1
                 (Some Demo.db))
  /\ succeeds (Backend.initiate_donation ascii_upper
                 (Backend.Donation.Build None "weekly" 1 "INR" "upi") Demo.o1
                 (Some Demo.db)).
Proof.
  pose proof (fun don =>
    backend_initiate_donation_cases ascii_upper Demo.db don Demo.o1 eq_refl) as T.
  split; [| split].
  - intros H.
    apply (proj1 (proj1 (T (Backend.Donation.Build None "micro" 5001 "inr" "upi"))
                    eq_refl) eq_refl) in H.
    destruct H as [_ H]. vm_compute in H. now apply H.
  - apply (proj1 (proj1 (T (Backend.Donation.Build None "micro" 5000 "inr" "upi"))
                    eq_refl) eq_refl).
    split; vm_compute; discriminate.
  - apply (proj1 (proj2 (T (Backend.Donation.Build None "weekly" 1 "INR" "upi")))).
    right. split; discriminate.
Defined.

Lemma store_inv_preserved_witness :
  store_inv
    (serve_all
       [ CreateStudent (Demo.new_student 50) Demo.o1;
         SubmitKyc (Demo.kyc_for "65f1a2b3c4d5e6f708192e01" KYCDocument.pending) Demo.o1;
         SubmitProof (Demo.proof_for "65f1a2b3c4d5e6f708192e01") Demo.o1;
         SubmitKyc (Demo.kyc_for "65f1a2b3c4d5e6f708192e01" KYCDocument.verified) Demo.o2;
         InitiateDonation (Demo.donation Donation.micro 250 "INR") Demo.o1;
         DonationWebhook (Demo.paid "EDC-upi-65f1a2b3c4d5e6f708192e01");
         GetTrust "65f1a2b3c4d5e6f708192e01" ]
       (Some ∅)).
Proof.
  apply store_inv_preserved. split.
  - intros name. unfold unique_ids, coll. rewrite lookup_empty. apply List.NoDup_nil.
  - intros s. unfold coll. rewrite lookup_empty. cbn. lia.
Defined.

(** The run above ends with one student scoring 75 (verified, one
    proof), one KYC record and one confirmed donation. *)
Lemma serve_all_example :
  match serve_all
          [ CreateStudent (Demo.new_student 50) Demo.o1;
            SubmitKyc (Demo.kyc_for "65f1a2b3c4d5e6f708192e01" KYCDocument.pending) Demo.o1;
            SubmitProof (Demo.proof_for "65f1a2b3c4d5e6f708192e01") Demo.o1;
            SubmitKyc (Demo.kyc_for "65f1a2b3c4d5e6f708192e01" KYCDocument.verified) Demo.o2;
            InitiateDonation (Demo.donation Donation.micro 250 "INR") Demo.o1;
            DonationWebhook (Demo.paid "EDC-upi-65f1a2b3c4d5e6f708192e01");
            GetTrust "65f1a2b3c4d5e6f708192e01" ]
          (Some ∅) with
  | Some d =>
      map (fun s => (doc_get s "trust_score", doc_get s "kyc_status")) (coll d "student")
      = [ (Some (Main.VScore 75), Some (VStr "verified")) ]
      /\ length (coll d "kycdocument") = 1%nat
      /\ map (fun x => doc_get x "status") (coll d "donation")
         = [ Some (VStr "succeeded") ]
  | None => False
  end.
Proof. vm_compute. repeat split. Qed.

Lemma discover_students_located_witness :
  exists out,
    Main.discover_students (Some (129 # 10)%Q) (Some (776 # 10)%Q) 50 10
      (Some (<["student" :=
                [ Demo.asha;
                  Doc Demo.ravi_id
                    (<["location" := VDict [("lat", VNum (129 # 10)); ("lng", VNum (776 # 10))]]>
                       (doc_fields Demo.ravi)) ]]> ∅))
    = (Ok out, Some (<["student" :=
                [ Demo.asha;
                  Doc Demo.ravi_id
                    (<["location" := VDict [("lat", VNum (129 # 10)); ("lng", VNum (776 # 10))]]>
                       (doc_fields Demo.ravi)) ]]> ∅))
    /\ length out = 1%nat.
Proof.
  destruct (discover_students_located
              (<["student" :=
                   [ Demo.asha;
                     Doc Demo.ravi_id
                       (<["location" := VDict [("lat", VNum (129 # 10)); ("lng", VNum (776 # 10))]]>
                          (doc_fields Demo.ravi)) ]]> ∅)
              (129 # 10)%Q (776 # 10)%Q 50 10) as (out & E & _ & _).
  exists out. split; [exact E |].
  vm_compute in E. injection E as <-. reflexivity.
Defined.
